(** * Voltcraft SEM6000 driver: message taxonomy, frame reassembly, session
      operations and scheduler pagination

    A shallow embedding of [message.py] and [sem6000.py].

    - Python objects that the driver inspects by attribute name
      (notifications) are a class tag plus an attribute dictionary, filled
      exactly as the class's [__init__] fills [self.__dict__]; attribute
      reads go through [getattr], which raises [AttributeError] for a name
      the object does not carry.
    - Python exceptions are values of [exn]; a computation of the driver is
      a state transformer over the session object that returns either a
      value or a raised exception, and keeps every mutation made before the
      raise.
    - The wire codec ([parser.MessageParser], [encoder.MessageEncoder]) and
      the Python library calls whose results the driver only forwards
      ([int], [datetime]) are interfaces ([Codec], [PyLib]).
    - The Bluetooth link is the script of what successive
      [waitForNotifications] calls deliver; [characteristics.write] appends
      to the log of written byte strings.  The [debug] trace to stderr is
      not part of the model. *)

From Stdlib Require Import ZArith List String Ascii Strings.Byte Bool Lia.
From stdpp Require Import base option list strings gmap pretty.
Import ListNotations.

Local Open Scope Z_scope.
Local Open Scope string_scope.
Local Open Scope list_scope.

(** ** Bytes *)

Definition bytes := list byte.

#[global] Instance byte_eq_dec : EqDecision byte := Byte.byte_eq_dec.

(** [b'\xff\xff'] *)
Definition sentinel : bytes := [Byte.xff; Byte.xff].

(** Python's [b[-2:]]: the last two bytes, or all of [b] when it is shorter. *)
Definition last_two (b : bytes) : bytes := drop (List.length b - 2)%nat b.

(** ** Exceptions and results *)

Inductive exn : Type :=
| Exception (msg : string)
| AttributeError (class_name attr : string)
| ValueError (msg : string)
| TypeError (msg : string)
| OverflowError (msg : string)
| AssertionError.

Inductive result (A : Type) : Type :=
| Ok (a : A)
| Raise (e : exn).
Arguments Ok {A} a.
Arguments Raise {A} e.

Definition result_bind {A B} (r : result A) (k : A -> result B) : result B :=
  match r with
  | Ok a => k a
  | Raise e => Raise e
  end.

(** ** message.py: weekdays, schedulers, scheduler entries *)

Inductive SchedulerWeekday : Type :=
| SUNDAY | MONDAY | TUESDAY | WEDNESDAY | THURSDAY | FRIDAY | SATURDAY.

(** The [value] of an enum member. *)
Definition weekday_value (w : SchedulerWeekday) : Z :=
  match w with
  | SUNDAY => 0 | MONDAY => 1 | TUESDAY => 2 | WEDNESDAY => 3
  | THURSDAY => 4 | FRIDAY => 5 | SATURDAY => 6
  end.

Definition weekday_members : list SchedulerWeekday :=
  [SUNDAY; MONDAY; TUESDAY; WEDNESDAY; THURSDAY; FRIDAY; SATURDAY].

(** [SchedulerWeekday(v)]: lookup of a member by value; [enum] raises
    [ValueError] when no member has that value. *)
Definition SchedulerWeekday_of_value (v : Z) : result SchedulerWeekday :=
  match List.find (fun w => Z.eqb (weekday_value w) v) weekday_members with
  | Some w => Ok w
  | None => Raise (ValueError (pretty v +:+ " is not a valid SchedulerWeekday"))
  end.

(** What a caller may put into [repeat_on_weekdays]. *)
Inductive weekday_arg : Type :=
| WInt (v : Z)
| WDay (w : SchedulerWeekday)
| WStr (s : string).

Record Scheduler : Type := mkScheduler {
  is_active : bool;
  is_action_turn_on : bool;
  repeat_on_weekdays : list SchedulerWeekday;
  year : Z; month : Z; day : Z; hour : Z; minute : Z
}.

(** First loop of [Scheduler.__init__]: every [int] element is replaced, in
    index order, by [SchedulerWeekday(weekday)]; other elements stay.  The
    source rewrites the caller's list in place; the converted list is the
    value here, and the first failing lookup ends the loop. *)
Fixpoint convert_weekdays (l : list weekday_arg) : result (list weekday_arg) :=
  match l with
  | [] => Ok []
  | WInt v :: rest =>
      result_bind (SchedulerWeekday_of_value v) (fun w =>
      result_bind (convert_weekdays rest) (fun rest' => Ok (WDay w :: rest')))
  | x :: rest =>
      result_bind (convert_weekdays rest) (fun rest' => Ok (x :: rest'))
  end.

(** Second loop: [assert isinstance(weekday, SchedulerWeekday)]. *)
Fixpoint assert_weekdays (l : list weekday_arg) : result (list SchedulerWeekday) :=
  match l with
  | [] => Ok []
  | WDay w :: rest =>
      result_bind (assert_weekdays rest) (fun rest' => Ok (w :: rest'))
  | _ :: _ => Raise AssertionError
  end.

Definition Scheduler_init (is_active is_action_turn_on : bool)
    (repeat_on_weekdays : list weekday_arg) (year month day hour minute : Z)
  : result Scheduler :=
  result_bind (convert_weekdays repeat_on_weekdays) (fun converted =>
  result_bind (assert_weekdays converted) (fun days =>
  Ok (mkScheduler is_active is_action_turn_on days year month day hour minute))).

Record SchedulerEntry : Type := mkSchedulerEntry {
  slot_id : Z;
  scheduler : Scheduler
}.

(** ** message.py: notifications as objects *)

Inductive klass : Type :=
| K_AuthorizationNotification
| K_ChangePinNotification
| K_ResetPinNotification
| K_PowerSwitchNotification
| K_LEDSwitchNotification
| K_SynchronizeDateAndTimeNotification
| K_RequestedSettingsNotification
| K_PowerLimitSetNotification
| K_PricesSetNotification
| K_ReducedPeriodSetNotification
| K_RequestedTimerStatusNotification
| K_TimerSetNotification
| K_SchedulerRequestedNotification
| K_SchedulerSetNotification.

#[global] Instance klass_eq_dec : EqDecision klass.
Proof. solve_decision. Defined.

Definition class_name (k : klass) : string :=
  match k with
  | K_AuthorizationNotification => "AuthorizationNotification"
  | K_ChangePinNotification => "ChangePinNotification"
  | K_ResetPinNotification => "ResetPinNotification"
  | K_PowerSwitchNotification => "PowerSwitchNotification"
  | K_LEDSwitchNotification => "LEDSwitchNotification"
  | K_SynchronizeDateAndTimeNotification => "SynchronizeDateAndTimeNotification"
  | K_RequestedSettingsNotification => "RequestedSettingsNotification"
  | K_PowerLimitSetNotification => "PowerLimitSetNotification"
  | K_PricesSetNotification => "PricesSetNotification"
  | K_ReducedPeriodSetNotification => "ReducedPeriodSetNotification"
  | K_RequestedTimerStatusNotification => "RequestedTimerStatusNotification"
  | K_TimerSetNotification => "TimerSetNotification"
  | K_SchedulerRequestedNotification => "SchedulerRequestedNotification"
  | K_SchedulerSetNotification => "SchedulerSetNotification"
  end.

(** Values stored in a notification's attributes. *)
Inductive attrval : Type :=
| ABool (b : bool)
| AInt (z : Z)
| AEntries (l : list SchedulerEntry).

Record Notification : Type := mkNotification {
  cls : klass;
  attrs : gmap string attrval
}.

Definition isinstance (n : Notification) (k : klass) : bool :=
  bool_decide (cls n = k).

(** [obj.name] *)
Definition getattr (n : Notification) (name : string) : result attrval :=
  match attrs n !! name with
  | Some v => Ok v
  | None => Raise (AttributeError (class_name (cls n)) name)
  end.

(** Truth value of an attribute, as [not x] and [if x] take it. *)
Definition truthy (v : attrval) : bool :=
  match v with
  | ABool b => b
  | AInt z => negb (Z.eqb z 0)
  | AEntries l => negb (bool_decide (List.length l = 0%nat))
  end.

(** [AbstractCommandConfirmationNotification.__init__] *)
Definition confirmation (k : klass) (was_successful : bool) : Notification :=
  mkNotification k {[ "was_successful" := ABool was_successful ]}.

Definition AuthorizationNotification := confirmation K_AuthorizationNotification.
Definition ChangePinNotification := confirmation K_ChangePinNotification.
Definition ResetPinNotification := confirmation K_ResetPinNotification.
Definition PowerSwitchNotification := confirmation K_PowerSwitchNotification.
Definition LEDSwitchNotification := confirmation K_LEDSwitchNotification.
Definition SynchronizeDateAndTimeNotification :=
  confirmation K_SynchronizeDateAndTimeNotification.
Definition PowerLimitSetNotification := confirmation K_PowerLimitSetNotification.
Definition PricesSetNotification := confirmation K_PricesSetNotification.
Definition ReducedPeriodSetNotification := confirmation K_ReducedPeriodSetNotification.
Definition TimerSetNotification := confirmation K_TimerSetNotification.
Definition SchedulerSetNotification := confirmation K_SchedulerSetNotification.

(** [RequestedSettingsNotification.__init__]; the chained assignment
    [self.self = self.reduced_price_in_cent = reduced_price_in_cent] stores
    the reduced price under both names. *)
Definition RequestedSettingsNotification
    (is_reduced_mode_active : bool) (normal_price_in_cent reduced_price_in_cent
     reduced_mode_start_time_in_minutes reduced_mode_end_time_in_minutes : Z)
    (is_led_active : bool) (power_limit_in_watt : Z) : Notification :=
  mkNotification K_RequestedSettingsNotification
    (<[ "power_limit_in_watt" := AInt power_limit_in_watt ]>
     (<[ "is_led_active" := ABool is_led_active ]>
     (<[ "reduced_mode_end_time_in_minutes" := AInt reduced_mode_end_time_in_minutes ]>
     (<[ "reduced_mode_start_time_in_minutes" := AInt reduced_mode_start_time_in_minutes ]>
     (<[ "reduced_price_in_cent" := AInt reduced_price_in_cent ]>
     (<[ "self" := AInt reduced_price_in_cent ]>
     (<[ "normal_price_in_cent" := AInt normal_price_in_cent ]>
     {[ "is_reduced_mode_active" := ABool is_reduced_mode_active ]}))))))).

(** [RequestedTimerStatusNotification.__init__] *)
Definition RequestedTimerStatusNotification
    (is_timer_running is_action_turn_on : bool)
    (target_second target_minute target_hour target_day target_month
     target_year original_timer_length_in_seconds : Z) : Notification :=
  mkNotification K_RequestedTimerStatusNotification
    (<[ "original_timer_length_in_seconds" := AInt original_timer_length_in_seconds ]>
     (<[ "target_year" := AInt target_year ]>
     (<[ "target_month" := AInt target_month ]>
     (<[ "target_day" := AInt target_day ]>
     (<[ "target_hour" := AInt target_hour ]>
     (<[ "target_minute" := AInt target_minute ]>
     (<[ "target_second" := AInt target_second ]>
     (<[ "is_action_turn_on" := ABool is_action_turn_on ]>
     {[ "is_timer_running" := ABool is_timer_running ]})))))))).

(** [SchedulerRequestedNotification.__init__].  Every element of
    [scheduler_entries] is a [SchedulerEntry] by its type, so the asserting
    loop passes. *)
Definition SchedulerRequestedNotification
    (number_of_schedulers : Z) (scheduler_entries : list SchedulerEntry)
  : Notification :=
  mkNotification K_SchedulerRequestedNotification
    (<[ "scheduler_entries" := AEntries scheduler_entries ]>
     {[ "number_of_schedulers" := AInt number_of_schedulers ]}).

(** ** message.py: commands (plain data handed to the encoder) *)

Inductive Command : Type :=
| AuthorizeCommand (pin : string)
| ChangePinCommand (pin new_pin : string)
| ResetPinCommand
| PowerSwitchCommand (on : bool)
| LEDSwitchCommand (on : bool)
| RequestSettingsCommand
| SetPowerLimitCommand (power_limit_in_watt : Z)
| SetPricesCommand (normal_price_in_cent reduced_price_in_cent : Z)
| SetReducedPeriodCommand (is_active : bool)
    (start_time_in_minutes end_time_in_minutes : Z)
| RequestTimerStatusCommand
| SetTimerCommand (is_reset_timer is_action_turn_on : bool)
    (target_second target_minute target_hour target_day target_month
     target_year : Z)
| RequestSchedulerCommand (page_number : Z).

(** ** Interfaces: wire codec and forwarded Python library calls *)

(** [encoder.MessageEncoder.encode] and [parser.MessageParser.parse]. *)
Class Codec : Type := {
  encode : Command -> result bytes;
  parse : bytes -> result Notification
}.

(** Arguments as the command line and the callers hand them in. *)
Inductive pyval : Type :=
| PyStr (s : string)
| PyBool (b : bool)
| PyInt (z : Z).

Record Time : Type := mkTime { t_hour : Z; t_minute : Z; t_second : Z }.

Record DateTime : Type := mkDateTime {
  dt_year : Z; dt_month : Z; dt_day : Z;
  dt_hour : Z; dt_minute : Z; dt_second : Z
}.

Class PyLib : Type := {
  (** [int(x)] *)
  py_int : pyval -> result Z;
  (** [datetime.time.fromisoformat(s)] *)
  time_fromisoformat : string -> result Time;
  (** [datetime.datetime.now()] *)
  datetime_now : DateTime;
  (** [dt + datetime.timedelta(hours=h, minutes=m, seconds=s)] *)
  datetime_add : DateTime -> Z -> Z -> Z -> result DateTime;
  (** [datetime.datetime(year, month, day, hour, minute, second)] *)
  datetime_new : Z -> Z -> Z -> Z -> Z -> Z -> result DateTime
}.

(** ** sem6000.py: the session object *)

Record SEM6000 : Type := mkSEM6000 {
  (** [self.pin] *)
  pin : string;
  (** [self._delegate._raw_notifications] *)
  raw_notifications : list bytes;
  (** what the next calls of [self._peripheral.waitForNotifications] will
      deliver: [Some data] is a notification handed to the delegate, [None]
      a timeout; an exhausted script times out *)
  incoming : list (option bytes);
  (** every byte string passed to [self._characteristics.write] so far *)
  written : list bytes
}.

Definition set_raw_notifications (raw : list bytes) (s : SEM6000) : SEM6000 :=
  mkSEM6000 (pin s) raw (incoming s) (written s).

Definition set_incoming (inc : list (option bytes)) (s : SEM6000) : SEM6000 :=
  mkSEM6000 (pin s) (raw_notifications s) inc (written s).

Definition set_written (w : list bytes) (s : SEM6000) : SEM6000 :=
  mkSEM6000 (pin s) (raw_notifications s) (incoming s) w.

(** Driver computations: state in, value or exception and state out. *)
Definition M (A : Type) : Type := SEM6000 -> result A * SEM6000.

Definition ret {A} (a : A) : M A := fun s => (Ok a, s).
Definition raise {A} (e : exn) : M A := fun s => (Raise e, s).
Definition bind {A B} (m : M A) (k : A -> M B) : M B :=
  fun s => match m s with
           | (Ok a, s') => k a s'
           | (Raise e, s') => (Raise e, s')
           end.
Definition lift {A} (r : result A) : M A := fun s => (r, s).
Definition get : M SEM6000 := fun s => (Ok s, s).
Definition modify (f : SEM6000 -> SEM6000) : M unit := fun s => (Ok tt, f s).

Notation "'let!' x ':=' m 'in' k" := (bind m (fun x => k))
  (at level 10, x pattern, m at level 100, k at level 200).
Notation "m ';;;' k" := (bind m (fun _ => k))
  (at level 100, k at level 200, right associativity).

(** *** SEM6000Delegate *)

(** [handleNotification]: [self._raw_notifications.append(data)] *)
Definition handleNotification (data : bytes) (raw : list bytes) : list bytes :=
  raw ++ [data].

Definition has_final_raw_notification (raw : list bytes) : bool :=
  if bool_decide (List.length raw = 0%nat) then false
  else
    let last_notification := List.last raw [] in
    if (List.length last_notification <? 2)%nat then false
    else bool_decide (last_two last_notification = sentinel).

(** [data = b''; for n in self._raw_notifications: data += n] *)
Definition join_fragments (raw : list bytes) : bytes :=
  fold_left (fun data n => data ++ n) raw [].

(** [while len(l): l.pop(0)] *)
Fixpoint pop_all (l : list bytes) : list bytes :=
  match l with
  | [] => []
  | _ :: rest => pop_all rest
  end.

Section Driver.
Context {codec : Codec} {pylib : PyLib}.

Definition consume_notification : M Notification :=
  let! s := get in
  let data := join_fragments (raw_notifications s) in
  let! notification :=
    (if negb (has_final_raw_notification (raw_notifications s))
     then raise (Exception "Incomplete notification data")
     else lift (parse data)) in
  modify (fun s => set_raw_notifications (pop_all (raw_notifications s)) s) ;;;
  ret notification.

(** *** SEM6000: sending and waiting *)

(** The [while True] loop of [_wait_for_notifications], by recursion on the
    link script: a timeout ([None], or nothing left) leaves the loop; a
    delivered notification reaches the delegate first and leaves the loop
    if it completes the frame. *)
Fixpoint wait_loop (inc : list (option bytes)) (raw : list bytes)
  : list (option bytes) * list bytes :=
  match inc with
  | [] => ([], raw)
  | None :: rest => (rest, raw)
  | Some data :: rest =>
      let raw' := handleNotification data raw in
      if has_final_raw_notification raw' then (rest, raw')
      else wait_loop rest raw'
  end.

Definition _wait_for_notifications : M unit :=
  modify (fun s =>
    let '(inc, raw) := wait_loop (incoming s) (raw_notifications s) in
    set_raw_notifications raw (set_incoming inc s)).

Definition _send_command (command : Command) : M unit :=
  let! encoded_command := lift (encode command) in
  modify (fun s => set_written (written s ++ [encoded_command]) s) ;;;
  _wait_for_notifications.

(** One request/response exchange as every operation performs it:
    [self._send_command(command)] followed by
    [self._delegate.consume_notification()]. *)
Definition exchange (command : Command) : M Notification :=
  _send_command command ;;;
  consume_notification.

(** *** SEM6000: operations *)

(** [not isinstance(notification, k) or not notification.was_successful];
    [or] reads the attribute only when the class test passed. *)
Definition wrong_class_or_unsuccessful (notification : Notification) (k : klass)
  : result bool :=
  if negb (isinstance notification k) then Ok true
  else result_bind (getattr notification "was_successful")
         (fun v => Ok (negb (truthy v))).

Definition authorize : M Notification :=
  let! s := get in
  let command := AuthorizeCommand (pin s) in
  _send_command command ;;;
  let! notification := consume_notification in
  let! failed := lift (wrong_class_or_unsuccessful notification
                         K_AuthorizationNotification) in
  if failed then raise (Exception "Authentication failed")
  else ret notification.

Definition request_settings : M Notification :=
  let command := RequestSettingsCommand in
  _send_command command ;;;
  let! notification := consume_notification in
  if negb (isinstance notification K_RequestedSettingsNotification)
  then raise (Exception "Request settings failed")
  else ret notification.

Definition set_power_limit (power_limit_in_watt : pyval) : M Notification :=
  let! watt := lift (py_int power_limit_in_watt) in
  let command := SetPowerLimitCommand watt in
  _send_command command ;;;
  let! notification := consume_notification in
  if negb (isinstance notification K_PowerLimitSetNotification)
  then raise (Exception "Set power limit failed")
  else ret notification.

Definition set_prices (normal_price_in_cent reduced_price_in_cent : pyval)
  : M Notification :=
  let! normal := lift (py_int normal_price_in_cent) in
  let! reduced := lift (py_int reduced_price_in_cent) in
  let command := SetPricesCommand normal reduced in
  _send_command command ;;;
  let! notification := consume_notification in
  if negb (isinstance notification K_PricesSetNotification)
  then raise (Exception "Set prices failed")
  else ret notification.

(** [str(x)] *)
Definition str (x : pyval) : string :=
  match x with
  | PyStr s => s
  | PyBool true => "True"
  | PyBool false => "False"
  | PyInt z => pretty z
  end.

(** [c.lower()] on one character: the letters A to Z move to a to z. *)
Definition lower_ascii (c : ascii) : ascii :=
  let n := N_of_ascii c in
  if ((65 <=? n) && (n <=? 90))%N then ascii_of_N (n + 32) else c.

(** [s.lower()], on the characters of the ASCII range: a string is its
    sequence of bytes, and bytes outside A to Z stay as they are. *)
Fixpoint lower (s : string) : string :=
  match s with
  | EmptyString => EmptyString
  | String c rest => String (lower_ascii c) (lower rest)
  end.

Definition _parse_boolean (boolean_string : pyval) : bool :=
  let boolean_value := false in
  let boolean_value :=
    if String.eqb (lower (str boolean_string)) "true" then true
    else boolean_value in
  let boolean_value :=
    if String.eqb (lower (str boolean_string)) "on" then true
    else boolean_value in
  let boolean_value :=
    if String.eqb (lower (str boolean_string)) "1" then true
    else boolean_value in
  boolean_value.

Definition set_reduced_period (is_active : pyval)
    (start_isotime end_isotime : string) : M Notification :=
  let! start_time := lift (time_fromisoformat start_isotime) in
  let! end_time := lift (time_fromisoformat end_isotime) in
  let start_time_in_minutes := t_hour start_time * 60 + t_minute start_time in
  let end_time_in_minutes := t_hour end_time * 60 + t_minute end_time in
  let command := SetReducedPeriodCommand (_parse_boolean is_active)
                   start_time_in_minutes end_time_in_minutes in
  _send_command command ;;;
  let! notification := consume_notification in
  if negb (isinstance notification K_ReducedPeriodSetNotification)
  then raise (Exception "Set reduced period failed")
  else ret notification.

Definition set_timer (is_reset_timer is_action_turn_on : pyval)
    (delay_isotime : string) : M Notification :=
  let! time := lift (time_fromisoformat delay_isotime) in
  let! dt := lift (datetime_add datetime_now
                     (t_hour time) (t_minute time) (t_second time)) in
  let! dt := lift (datetime_new (dt_year dt mod 100) (dt_month dt) (dt_day dt)
                     (dt_hour dt) (dt_minute dt) (dt_second dt)) in
  let command := SetTimerCommand (_parse_boolean is_reset_timer)
                   (_parse_boolean is_action_turn_on)
                   (dt_second dt) (dt_minute dt) (dt_hour dt)
                   (dt_day dt) (dt_month dt) (dt_year dt) in
  _send_command command ;;;
  let! notification := consume_notification in
  if negb (isinstance notification K_TimerSetNotification)
  then raise (Exception "Set timer failed")
  else ret notification.

(** *** SEM6000: scheduler pages *)

(** [x // 4] on an attribute value. *)
Definition floordiv4 (v : attrval) : result Z :=
  match v with
  | AInt z => Ok (z / 4)
  | ABool b => Ok (Z.b2z b / 4)
  | AEntries _ =>
      Raise (TypeError "unsupported operand type(s) for //: 'list' and 'int'")
  end.

(** [target.extend(arg)]: the method exists on lists only, and takes an
    iterable. *)
Definition extend_method (target : attrval)
  : result (attrval -> result attrval) :=
  match target with
  | AEntries l =>
      Ok (fun arg =>
            match arg with
            | AEntries l' => Ok (AEntries (l ++ l'))
            | AInt _ => Raise (TypeError "'int' object is not iterable")
            | ABool _ => Raise (TypeError "'bool' object is not iterable")
            end)
  | AInt _ => Raise (AttributeError "int" "extend")
  | ABool _ => Raise (AttributeError "bool" "extend")
  end.

(** The list held by an attribute is extended in place: the object carries
    the longer list from then on. *)
Definition store_attr (n : Notification) (name : string) (v : attrval)
  : Notification :=
  mkNotification (cls n) (<[ name := v ]> (attrs n)).

(** Body of [for page_number in range(1, max_page_number+1)], over the
    page numbers still to visit. *)
Fixpoint request_further_pages (pages : list Z) (notification : Notification)
  : M Notification :=
  match pages with
  | [] => ret notification
  | page_number :: rest =>
      let command := RequestSchedulerCommand page_number in
      _send_command command ;;;
      let! further_notification := consume_notification in
      if negb (isinstance further_notification K_SchedulerRequestedNotification)
      then raise (Exception "Request scheduler 2nd page failed")
      else
        let! target := lift (getattr notification "schedulers") in
        let! extend := lift (extend_method target) in
        let! arg := lift (getattr further_notification "schedulers") in
        let! extended := lift (extend arg) in
        request_further_pages rest (store_attr notification "schedulers" extended)
  end.

Definition request_scheduler : M Notification :=
  let command := RequestSchedulerCommand 0 in
  _send_command command ;;;
  let! notification := consume_notification in
  if negb (isinstance notification K_SchedulerRequestedNotification)
  then raise (Exception "Request scheduler 1st page failed")
  else
    let! count := lift (getattr notification "number_of_schedulers") in
    let! max_page_number := lift (floordiv4 count) in
    request_further_pages (seqZ 1 max_page_number) notification.

End Driver.

(** ** A sample environment for concrete runs

    One start byte [0x0f], one tag byte selecting the class, the payload,
    and the sentinel.  A scheduler page carries the total count and then
    one slot byte per entry. *)

Definition sample_scheduler : Scheduler :=
  mkScheduler true true [] 2020 1 1 6 30.

Definition frame (tag : N) (payload : list N) : bytes :=
  omap Byte.of_N (15%N :: tag :: payload) ++ sentinel.

Definition sample_encode (command : Command) : result bytes :=
  match command with
  | AuthorizeCommand _ => Ok (frame 23 [])
  | ChangePinCommand _ _ => Ok (frame 24 [])
  | ResetPinCommand => Ok (frame 25 [])
  | PowerSwitchCommand on => Ok (frame 3 [if on then 1 else 0]%N)
  | LEDSwitchCommand on => Ok (frame 15 [if on then 1 else 0]%N)
  | RequestSettingsCommand => Ok (frame 16 [])
  | SetPowerLimitCommand w =>
      if bool_decide (0 <= w < 65536)
      then Ok (frame 5 [Z.to_N (w / 256); Z.to_N (w mod 256)])
      else Raise (ValueError "power limit out of range")
  | SetPricesCommand n r =>
      if bool_decide (0 <= n < 256 /\ 0 <= r < 256)
      then Ok (frame 17 [Z.to_N n; Z.to_N r])
      else Raise (ValueError "price out of range")
  | SetReducedPeriodCommand a s e =>
      if bool_decide (0 <= s < 1440 /\ 0 <= e < 1440)
      then Ok (frame 18 [if a then 1%N else 0%N; Z.to_N (s / 256);
                         Z.to_N (s mod 256); Z.to_N (e / 256);
                         Z.to_N (e mod 256)])
      else Raise (ValueError "time out of range")
  | RequestTimerStatusCommand => Ok (frame 9 [])
  | SetTimerCommand r a sec mi h d mo y =>
      Ok (frame 8 ((if r then 1%N else 0%N) :: (if a then 1%N else 0%N)
                   :: map Z.to_N [sec; mi; h; d; mo; y]))
  | RequestSchedulerCommand page =>
      if bool_decide (0 <= page < 256)
      then Ok (frame 20 [Z.to_N page])
      else Raise (ValueError "page out of range")
  end.

Definition sample_confirmation (k : klass) (payload : list N)
  : result Notification :=
  match payload with
  | [status] => Ok (confirmation k (N.eqb status 0))
  | _ => Raise (Exception "Invalid confirmation")
  end.

Definition sample_parse (data : bytes) : result Notification :=
  match map Byte.to_N data with
  | start :: tag :: rest =>
      let payload := take (List.length rest - 2) rest in
      if negb (N.eqb start 15) then Raise (Exception "Invalid start byte")
      else if N.eqb tag 23 then sample_confirmation K_AuthorizationNotification payload
      else if N.eqb tag 3 then sample_confirmation K_PowerSwitchNotification payload
      else if N.eqb tag 5 then sample_confirmation K_PowerLimitSetNotification payload
      else if N.eqb tag 17 then sample_confirmation K_PricesSetNotification payload
      else if N.eqb tag 18 then sample_confirmation K_ReducedPeriodSetNotification payload
      else if N.eqb tag 8 then sample_confirmation K_TimerSetNotification payload
      else if N.eqb tag 20 then
        match payload with
        | count :: slots =>
            Ok (SchedulerRequestedNotification (Z.of_N count)
                  (map (fun slot => mkSchedulerEntry (Z.of_N slot) sample_scheduler)
                       slots))
        | [] => Raise (Exception "Invalid scheduler page")
        end
      else Raise (Exception "Unknown notification")
  | _ => Raise (Exception "Invalid frame")
  end.

Definition sample_codec : Codec :=
  {| encode := sample_encode; parse := sample_parse |}.

Definition digit_value (c : ascii) : option Z :=
  let n := N_of_ascii c in
  if ((48 <=? n) && (n <=? 57))%N then Some (Z.of_N n - 48) else None.

Fixpoint digits_value (acc : Z) (s : string) : option Z :=
  match s with
  | EmptyString => Some acc
  | String c rest =>
      match digit_value c with
      | Some d => digits_value (acc * 10 + d) rest
      | None => None
      end
  end.

Definition sample_int (x : pyval) : result Z :=
  match x with
  | PyInt z => Ok z
  | PyBool b => Ok (Z.b2z b)
  | PyStr EmptyString => Raise (ValueError "invalid literal for int()")
  | PyStr s =>
      match digits_value 0 s with
      | Some z => Ok z
      | None => Raise (ValueError "invalid literal for int()")
      end
  end.

(** ["HH:MM"] and ["HH:MM:SS"] *)
Definition sample_time_fromisoformat (s : string) : result Time :=
  let two (a b : ascii) :=
    match digit_value a, digit_value b with
    | Some x, Some y => Some (x * 10 + y)
    | _, _ => None
    end in
  let build (h m sec : option Z) :=
    match h, m, sec with
    | Some h, Some m, Some sec =>
        if bool_decide (h < 24 /\ m < 60 /\ sec < 60) then Ok (mkTime h m sec)
        else Raise (ValueError "time out of range")
    | _, _, _ => Raise (ValueError "Invalid isoformat string")
    end in
  match list_ascii_of_string s with
  | [h1; h2; ":"; m1; m2]%char => build (two h1 h2) (two m1 m2) (Some 0)
  | [h1; h2; ":"; m1; m2; ":"; s1; s2]%char =>
      build (two h1 h2) (two m1 m2) (two s1 s2)
  | _ => Raise (ValueError "Invalid isoformat string")
  end.

Definition is_leap (y : Z) : bool :=
  (Z.eqb (y mod 4) 0 && negb (Z.eqb (y mod 100) 0)) || Z.eqb (y mod 400) 0.

Definition days_in_month (y m : Z) : Z :=
  if Z.eqb m 2 then (if is_leap y then 29 else 28)
  else if Z.eqb m 4 || Z.eqb m 6 || Z.eqb m 9 || Z.eqb m 11 then 30
  else 31.

Definition sample_datetime_new (y mo d h mi s : Z) : result DateTime :=
  if bool_decide (1 <= y <= 9999 /\ 1 <= mo <= 12 /\ 1 <= d <= days_in_month y mo
                  /\ 0 <= h < 24 /\ 0 <= mi < 60 /\ 0 <= s < 60)
  then Ok (mkDateTime y mo d h mi s)
  else Raise (ValueError "datetime field out of range").

(** Adding less than a day moves the date forward by at most one day. *)
Definition sample_datetime_add (dt : DateTime) (h mi s : Z) : result DateTime :=
  let total := (dt_hour dt + h) * 3600 + (dt_minute dt + mi) * 60
               + (dt_second dt + s) in
  let secs := total mod 86400 in
  let clock y mo d :=
    mkDateTime y mo d (secs / 3600) (secs mod 3600 / 60) (secs mod 60) in
  if bool_decide (0 <= h < 24 /\ 0 <= mi < 60 /\ 0 <= s < 60) then
    if Z.ltb total 86400 then Ok (clock (dt_year dt) (dt_month dt) (dt_day dt))
    else if Z.ltb (dt_day dt) (days_in_month (dt_year dt) (dt_month dt))
    then Ok (clock (dt_year dt) (dt_month dt) (dt_day dt + 1))
    else if Z.ltb (dt_month dt) 12 then Ok (clock (dt_year dt) (dt_month dt + 1) 1)
    else if Z.ltb (dt_year dt) 9999 then Ok (clock (dt_year dt + 1) 1 1)
    else Raise (OverflowError "date value out of range")
  else Raise (ValueError "timedelta out of the modelled range").

Definition sample_pylib : PyLib :=
  {| py_int := sample_int;
     time_fromisoformat := sample_time_fromisoformat;
     datetime_now := mkDateTime 2024 3 15 10 30 0;
     datetime_add := sample_datetime_add;
     datetime_new := sample_datetime_new |}.

(** A fresh session: default pin, empty delegate buffer, nothing written,
    and the given link script. *)
Definition session (script : list (option bytes)) : SEM6000 :=
  mkSEM6000 "0000" [] script [].

(** A scheduler page frame as the sample codec reads it. *)
Definition page_frame (count : N) (slots : list N) : bytes :=
  frame 20 (count :: slots).

(** ** sem6000.py: the other single-exchange operations *)

Section MoreOperations.
Context {codec : Codec}.

Definition change_pin (new_pin : string) : M Notification :=
  let! s := get in
  let command := ChangePinCommand (pin s) new_pin in
  _send_command command ;;;
  let! notification := consume_notification in
  let! failed := lift (wrong_class_or_unsuccessful notification
                         K_ChangePinNotification) in
  if failed then raise (Exception "Change PIN failed")
  else ret notification.

Definition reset_pin : M Notification :=
  let command := ResetPinCommand in
  _send_command command ;;;
  let! notification := consume_notification in
  let! failed := lift (wrong_class_or_unsuccessful notification
                         K_ResetPinNotification) in
  if failed then raise (Exception "Reset PIN failed")
  else ret notification.

Definition power_on : M Notification :=
  let command := PowerSwitchCommand true in
  _send_command command ;;;
  let! notification := consume_notification in
  let! failed := lift (wrong_class_or_unsuccessful notification
                         K_PowerSwitchNotification) in
  if failed then raise (Exception "Power on failed")
  else ret notification.

Definition power_off : M Notification :=
  let command := PowerSwitchCommand false in
  _send_command command ;;;
  let! notification := consume_notification in
  let! failed := lift (wrong_class_or_unsuccessful notification
                         K_PowerSwitchNotification) in
  if failed then raise (Exception "Power off failed")
  else ret notification.

Definition led_on : M Notification :=
  let command := LEDSwitchCommand true in
  _send_command command ;;;
  let! notification := consume_notification in
  let! failed := lift (wrong_class_or_unsuccessful notification
                         K_LEDSwitchNotification) in
  if failed then raise (Exception "LED on failed")
  else ret notification.

Definition led_off : M Notification :=
  let command := LEDSwitchCommand false in
  _send_command command ;;;
  let! notification := consume_notification in
  let! failed := lift (wrong_class_or_unsuccessful notification
                         K_LEDSwitchNotification) in
  if failed then raise (Exception "LED off failed")
  else ret notification.

Definition request_timer_status : M Notification :=
  let command := RequestTimerStatusCommand in
  _send_command command ;;;
  let! notification := consume_notification in
  if negb (isinstance notification K_RequestedTimerStatusNotification)
  then raise (Exception "Request timer status failed")
  else ret notification.

(** The operations that perform one exchange and convert no argument,
    each with the command it sends from a session [s]. *)
Definition single_exchange_operations (new_pin : string)
  : list (M Notification * (SEM6000 -> Command)) :=
  [ (authorize, fun s => AuthorizeCommand (pin s));
    (change_pin new_pin, fun s => ChangePinCommand (pin s) new_pin);
    (reset_pin, fun _ => ResetPinCommand);
    (power_on, fun _ => PowerSwitchCommand true);
    (power_off, fun _ => PowerSwitchCommand false);
    (led_on, fun _ => LEDSwitchCommand true);
    (led_off, fun _ => LEDSwitchCommand false);
    (request_settings, fun _ => RequestSettingsCommand);
    (request_timer_status, fun _ => RequestTimerStatusCommand) ].

End MoreOperations.

(** ** sem6000.py: device discovery *)

(** One entry of [btle.Scanner().scan(timeout)]: its address and the
    advertising data as [getValueText] reads it ([None] for a field the
    device does not advertise). *)
Record ScanEntry : Type := mkScanEntry {
  addr : string;
  getValueText : Z -> option string
}.

(** [{'address': address, 'name': complete_local_name}] *)
Record Discovered : Type := mkDiscovered {
  address : string;
  name : option string
}.

Definition sem6000_service_uuid : string :=
  "0000fff0-0000-1000-8000-00805f9b34fb".

(** The [for device in scanner_results] loop, with [result] as built so
    far. *)
Fixpoint discover_loop (scanner_results : list ScanEntry)
    (result : list Discovered) : list Discovered :=
  match scanner_results with
  | [] => result
  | device :: rest =>
      let address := addr device in
      let service_class_uuids := getValueText device 2 in
      let complete_local_name := getValueText device 9 in
      if negb (bool_decide (service_class_uuids = Some sem6000_service_uuid))
      then discover_loop rest result
      else discover_loop rest (result ++ [mkDiscovered address complete_local_name])
  end.

Definition discover (scanner_results : list ScanEntry) : list Discovered :=
  discover_loop scanner_results [].

(** ** sem6000.py: time formatting *)

(** ["{:02}".format(n)] for an [int]: sign, then zeros up to a total width
    of two, then the decimal digits. *)
Definition format_02 (n : Z) : string :=
  let digits := pretty (Z.abs n) in
  let sign := if Z.ltb n 0 then "-" else "" in
  let padding := (2 - String.length sign - String.length digits)%nat in
  sign +:+ string_of_list_ascii (replicate padding "0"%char) +:+ digits.

Definition _format_minutes_as_time (minutes : Z) : string :=
  let hour := minutes / 60 in
  let minute := minutes - hour * 60 in
  format_02 hour +:+ ":" +:+ format_02 minute.

Definition _format_hour_and_minute_as_time (hour minute : Z) : string :=
  format_02 hour +:+ ":" +:+ format_02 minute.

(** ** message.py: string forms of schedulers *)

(** [weekday.name] *)
Definition weekday_name (w : SchedulerWeekday) : string :=
  match w with
  | SUNDAY => "SUNDAY" | MONDAY => "MONDAY" | TUESDAY => "TUESDAY"
  | WEDNESDAY => "WEDNESDAY" | THURSDAY => "THURSDAY" | FRIDAY => "FRIDAY"
  | SATURDAY => "SATURDAY"
  end.

(** The loop of [Scheduler.__str__] over [self.repeat_on_weekdays], with
    the string built so far and the [is_first_value] flag. *)
Fixpoint join_weekday_names (l : list SchedulerWeekday)
    (repeat_on_weekdays : string) (is_first_value : bool) : string :=
  match l with
  | [] => repeat_on_weekdays
  | weekday :: rest =>
      let repeat_on_weekdays :=
        if negb is_first_value then repeat_on_weekdays +:+ ", "
        else repeat_on_weekdays in
      join_weekday_names rest (repeat_on_weekdays +:+ weekday_name weekday) false
  end.

Definition Scheduler_str (s : Scheduler) : string :=
  let name := "Scheduler" in
  let repeat_on_weekdays := join_weekday_names (repeat_on_weekdays s) "[" true in
  let repeat_on_weekdays := repeat_on_weekdays +:+ "]" in
  name +:+ "(is_active=" +:+ str (PyBool (is_active s))
  +:+ ", is_action_turn_on=" +:+ str (PyBool (is_action_turn_on s))
  +:+ ", repeat_on_weekdays=" +:+ repeat_on_weekdays
  +:+ ", year=" +:+ str (PyInt (year s))
  +:+ ", month=" +:+ str (PyInt (month s))
  +:+ ", day=" +:+ str (PyInt (day s))
  +:+ ", hour=" +:+ str (PyInt (hour s))
  +:+ ", minute=" +:+ str (PyInt (minute s)) +:+ ")".

(** ** Further sample environments *)

(** A codec that rejects pins that are not four characters long and also
    reads the confirmations and the timer status the sample codec leaves
    out. *)
Definition strict_encode (command : Command) : result bytes :=
  match command with
  | AuthorizeCommand pin =>
      if bool_decide (String.length pin = 4%nat) then sample_encode command
      else Raise (ValueError "pin must have four digits")
  | ChangePinCommand pin new_pin =>
      if bool_decide (String.length pin = 4%nat /\ String.length new_pin = 4%nat)
      then sample_encode command
      else Raise (ValueError "pin must have four digits")
  | _ => sample_encode command
  end.

Definition strict_parse (data : bytes) : result Notification :=
  match map Byte.to_N data with
  | start :: tag :: rest =>
      let payload := take (List.length rest - 2) rest in
      if negb (N.eqb start 15) then Raise (Exception "Invalid start byte")
      else if N.eqb tag 24 then sample_confirmation K_ChangePinNotification payload
      else if N.eqb tag 25 then sample_confirmation K_ResetPinNotification payload
      else if N.eqb tag 15 then sample_confirmation K_LEDSwitchNotification payload
      else if N.eqb tag 9 then
        match payload with
        | [running; turn_on; sec; mi; h; d; mo; y] =>
            Ok (RequestedTimerStatusNotification
                  (negb (N.eqb running 0)) (negb (N.eqb turn_on 0))
                  (Z.of_N sec) (Z.of_N mi) (Z.of_N h) (Z.of_N d) (Z.of_N mo)
                  (Z.of_N y) 0)
        | _ => Raise (Exception "Invalid timer status")
        end
      else sample_parse data
  | _ => Raise (Exception "Invalid frame")
  end.

Definition strict_codec : Codec :=
  {| encode := strict_encode; parse := strict_parse |}.

(** The sample library with the clock at the start of the year 2100. *)
Definition pylib_in_2100 : PyLib :=
  {| py_int := sample_int;
     time_fromisoformat := sample_time_fromisoformat;
     datetime_now := mkDateTime 2100 1 1 0 0 0;
     datetime_add := sample_datetime_add;
     datetime_new := sample_datetime_new |}.

(** * Properties

    The driver raises plain [Exception]s told apart by their message:
    "Incomplete notification data" when no complete frame is buffered,
    "Authentication failed" from [authorize], "Request settings failed",
    "Set power limit failed", "Set prices failed",
    "Set reduced period failed" and "Set timer failed" from the operations
    of those names, and "Request scheduler 1st page failed" and
    "Request scheduler 2nd page failed" from [request_scheduler].  The enum
    lookup [SchedulerWeekday(v)] raises [ValueError]. *)

(** ** Frame reassembly *)

Lemma join_fragments_from (raw : list bytes) (data : bytes) :
  fold_left (fun data n => data ++ n) raw data = data ++ concat raw.
Proof.
  revert data. induction raw as [|n raw IH]; intros data; simpl.
  - now rewrite app_nil_r.
  - rewrite IH. now rewrite <- app_assoc.
Qed.

Lemma join_fragments_concat (raw : list bytes) :
  join_fragments raw = concat raw.
Proof. unfold join_fragments. now rewrite join_fragments_from. Qed.

Lemma pop_all_nil (l : list bytes) : pop_all l = [].
Proof. induction l; simpl; auto. Qed.

Lemma last_two_sentinel (body : bytes) : last_two (body ++ sentinel) = sentinel.
Proof.
  unfold last_two. rewrite length_app. simpl.
  replace (List.length body + 2 - 2)%nat with (List.length body + 0)%nat by lia.
  rewrite drop_app_length'; [reflexivity | lia].
Qed.

Lemma last_two_split (b : bytes) :
  b = take (List.length b - 2) b ++ last_two b.
Proof. unfold last_two. now rewrite take_drop. Qed.

Lemma has_final_nil : has_final_raw_notification [] = false.
Proof. reflexivity. Qed.

Lemma has_final_snoc (earlier : list bytes) (fragment : bytes) :
  has_final_raw_notification (earlier ++ [fragment]) =
  negb (List.length fragment <? 2)%nat && bool_decide (last_two fragment = sentinel).
Proof.
  unfold has_final_raw_notification.
  rewrite bool_decide_eq_false_2 by (rewrite length_app; simpl; lia).
  rewrite last_last. destruct (List.length fragment <? 2)%nat; reflexivity.
Qed.

(** C3: [has_final_raw_notification] is true exactly when the buffer holds
    at least one fragment and the most recently pushed fragment ends with
    the two sentinel bytes 0xFF 0xFF; it is false for the empty buffer, and
    false whenever the most recent fragment is shorter than two bytes. *)
Theorem has_final_raw_notification_iff (raw : list bytes) :
  (has_final_raw_notification raw = true <->
   exists earlier body, raw = earlier ++ [body ++ sentinel]) /\
  has_final_raw_notification [] = false /\
  (forall earlier fragment,
      (List.length fragment < 2)%nat ->
      has_final_raw_notification (handleNotification fragment earlier) = false).
Proof.
  split; [|split].
  - split.
    + intros H. destruct (exists_last (l := raw)) as (earlier & fragment & ->).
      { intros ->. discriminate H. }
      rewrite has_final_snoc in H. apply andb_true_iff in H as [_ H].
      apply bool_decide_eq_true_1 in H.
      exists earlier, (take (List.length fragment - 2) fragment).
      rewrite <- H. now rewrite <- last_two_split.
    + intros (earlier & body & ->). rewrite has_final_snoc.
      rewrite last_two_sentinel, length_app.
      rewrite bool_decide_eq_true_2 by reflexivity.
      change (List.length sentinel) with 2%nat.
      destruct (Nat.ltb_spec (List.length body + 2) 2); [lia | reflexivity].
  - reflexivity.
  - intros earlier fragment Hlen. unfold handleNotification.
    rewrite has_final_snoc.
    destruct (Nat.ltb_spec (List.length fragment) 2); [reflexivity | lia].
Qed.

Lemma has_final_raw_notification_iff_witness :
  has_final_raw_notification [[Byte.x0f; Byte.x06]; [Byte.x17; Byte.xff; Byte.xff]] = true /\
  has_final_raw_notification (handleNotification [Byte.xff] [[Byte.x0f; Byte.xff]]) = false.
Proof.
  split.
  - apply (proj1 (has_final_raw_notification_iff
                    [[Byte.x0f; Byte.x06]; [Byte.x17; Byte.xff; Byte.xff]])).
    exists [[Byte.x0f; Byte.x06]], [Byte.x17]. reflexivity.
  - apply (proj2 (proj2 (has_final_raw_notification_iff []))). simpl. lia.
Defined.

Section DelegateFacts.
Context {codec : Codec}.

Lemma consume_notification_eq (s : SEM6000) :
  consume_notification s =
  if has_final_raw_notification (raw_notifications s) then
    match parse (concat (raw_notifications s)) with
    | Ok n => (Ok n, set_raw_notifications [] s)
    | Raise e => (Raise e, s)
    end
  else (Raise (Exception "Incomplete notification data"), s).
Proof.
  unfold consume_notification, bind, get, modify, ret, raise, lift.
  rewrite join_fragments_concat.
  destruct (has_final_raw_notification (raw_notifications s)); simpl; [|reflexivity].
  destruct (parse (concat (raw_notifications s))); simpl; [|reflexivity].
  now rewrite pop_all_nil.
Qed.

(** C4: [consume_notification] raises the incomplete-frame exception
    whenever [has_final_raw_notification] is false; when it is true and the
    concatenation of the buffered fragments, in receipt order, parses, the
    parsed notification is returned and the buffer is emptied, so that an
    immediate second call finds no frame. *)
Theorem consume_notification_spec (s : SEM6000) :
  (has_final_raw_notification (raw_notifications s) = false ->
   consume_notification s = (Raise (Exception "Incomplete notification data"), s)) /\
  (forall n,
      has_final_raw_notification (raw_notifications s) = true ->
      parse (concat (raw_notifications s)) = Ok n ->
      consume_notification s = (Ok n, set_raw_notifications [] s) /\
      consume_notification (set_raw_notifications [] s) =
        (Raise (Exception "Incomplete notification data"),
         set_raw_notifications [] s)).
Proof.
  split.
  - intros H. rewrite consume_notification_eq. now rewrite H.
  - intros n Hfinal Hparse. split.
    + rewrite consume_notification_eq. now rewrite Hfinal, Hparse.
    + rewrite consume_notification_eq. reflexivity.
Qed.

(** Nothing empties the buffer when the next command is sent: what was
    buffered stays in front of the fragments delivered during the wait. *)
Lemma wait_loop_keeps (inc : list (option bytes)) (raw : list bytes) :
  exists delivered, snd (wait_loop inc raw) = raw ++ delivered.
Proof.
  revert raw. induction inc as [|[data|] inc IH]; intros raw; simpl.
  - exists []. now rewrite app_nil_r.
  - unfold handleNotification.
    destruct (has_final_raw_notification (raw ++ [data])).
    + exists [data]. reflexivity.
    + destruct (IH (raw ++ [data])) as [delivered H].
      exists (data :: delivered). rewrite H. now rewrite <- app_assoc.
  - exists []. now rewrite app_nil_r.
Qed.

Lemma send_command_keeps_buffered (command : Command) (s s1 : SEM6000) (r : result unit) :
  _send_command command s = (r, s1) ->
  exists delivered, raw_notifications s1 = raw_notifications s ++ delivered.
Proof.
  unfold _send_command, _wait_for_notifications, bind, lift, modify.
  destruct (encode command) as [encoded|e]; simpl.
  - destruct (wait_loop_keeps (incoming s) (raw_notifications s)) as [delivered H].
    destruct (wait_loop (incoming s) (raw_notifications s)) as [inc raw].
    simpl in *. intros Heq. inversion Heq. simpl. eauto.
  - intros Heq. inversion Heq. exists []. now rewrite app_nil_r.
Qed.

(** C10, as amended: [consume_notification] empties the buffer on a
    successful parse only.  Whenever it raises, for an incomplete frame or
    for a parse failure, the session and with it every buffered fragment is
    left exactly as it was.  The driver has no reset: the fragments stay
    buffered across the next [_send_command], in front of what that
    delivers, and go when a later [consume_notification] parses the whole
    buffer successfully. *)
Theorem consume_notification_clears_only_on_success (s : SEM6000) :
  (forall e s', consume_notification s = (Raise e, s') -> s' = s) /\
  (forall notification s',
      consume_notification s = (Ok notification, s') ->
      has_final_raw_notification (raw_notifications s) = true /\
      parse (concat (raw_notifications s)) = Ok notification /\
      s' = set_raw_notifications [] s) /\
  (forall command r s1,
      _send_command command s = (r, s1) ->
      exists delivered, raw_notifications s1 = raw_notifications s ++ delivered).
Proof.
  split; [|split].
  - intros e s'. rewrite consume_notification_eq.
    destruct (has_final_raw_notification (raw_notifications s)).
    + destruct (parse (concat (raw_notifications s))); intros H; inversion H.
      reflexivity.
    + intros H; inversion H. reflexivity.
  - intros n s'. rewrite consume_notification_eq.
    destruct (has_final_raw_notification (raw_notifications s)); [|discriminate].
    destruct (parse (concat (raw_notifications s))) as [n'|]; [|discriminate].
    intros H; inversion H. auto.
  - intros command r s1. apply send_command_keeps_buffered.
Qed.

End DelegateFacts.

Lemma consume_notification_spec_witness :
  @consume_notification sample_codec
    (mkSEM6000 "0000" [[Byte.x0f; Byte.x17]; [Byte.x00; Byte.xff; Byte.xff]] [] []) =
    (Ok (AuthorizationNotification true), mkSEM6000 "0000" [] [] []) /\
  @consume_notification sample_codec (mkSEM6000 "0000" [[Byte.x0f; Byte.x17]] [] []) =
    (Raise (Exception "Incomplete notification data"),
     mkSEM6000 "0000" [[Byte.x0f; Byte.x17]] [] []).
Proof.
  split.
  - apply (proj2 (@consume_notification_spec sample_codec
             (mkSEM6000 "0000" [[Byte.x0f; Byte.x17]; [Byte.x00; Byte.xff; Byte.xff]] [] []))
             (AuthorizationNotification true)); vm_compute; reflexivity.
  - apply (proj1 (@consume_notification_spec sample_codec
             (mkSEM6000 "0000" [[Byte.x0f; Byte.x17]] [] []))).
    vm_compute; reflexivity.
Defined.

Lemma consume_notification_clears_only_on_success_witness :
  mkSEM6000 "0000" [[Byte.x0f; Byte.x63; Byte.xff; Byte.xff]] [] [] =
  mkSEM6000 "0000" [[Byte.x0f; Byte.x63; Byte.xff; Byte.xff]] [] [] /\
  (exists delivered,
      [[Byte.x0f; Byte.x17]; [Byte.x00; Byte.xff; Byte.xff]] =
      [[Byte.x0f; Byte.x17]] ++ delivered) /\
  mkSEM6000 "0000" [] [] [frame 23 []] =
  set_raw_notifications []
    (mkSEM6000 "0000" [[Byte.x0f; Byte.x17]; [Byte.x00; Byte.xff; Byte.xff]] []
       [frame 23 []]).
Proof.
  split; [|split].
  - refine (proj1 (@consume_notification_clears_only_on_success sample_codec
              (mkSEM6000 "0000" [[Byte.x0f; Byte.x63; Byte.xff; Byte.xff]] [] []))
            (Exception "Unknown notification") _ _).
    vm_compute; reflexivity.
  - refine (proj2 (proj2 (@consume_notification_clears_only_on_success sample_codec
              (mkSEM6000 "0000" [[Byte.x0f; Byte.x17]]
                 [Some [Byte.x00; Byte.xff; Byte.xff]] [])))
            (AuthorizeCommand "0000") (Ok tt)
            (mkSEM6000 "0000" [[Byte.x0f; Byte.x17]; [Byte.x00; Byte.xff; Byte.xff]] []
               [frame 23 []]) _).
    vm_compute; reflexivity.
  - refine (proj2 (proj2 (proj1 (proj2
              (@consume_notification_clears_only_on_success sample_codec
                 (mkSEM6000 "0000"
                    [[Byte.x0f; Byte.x17]; [Byte.x00; Byte.xff; Byte.xff]] []
                    [frame 23 []])))
            (AuthorizationNotification true)
            (mkSEM6000 "0000" [] [] [frame 23 []]) _))).
    vm_compute; reflexivity.
Defined.

(** The fragment [0f 17] alone makes [consume_notification] raise and stays
    buffered; the next exchange, which resets nothing, takes it as the
    start of the frame it decodes, and the buffer is empty afterwards. *)
Lemma stale_fragment_discarded_without_reset :
  @consume_notification sample_codec
    (mkSEM6000 "0000" [[Byte.x0f; Byte.x17]] [Some [Byte.x00; Byte.xff; Byte.xff]] []) =
    (Raise (Exception "Incomplete notification data"),
     mkSEM6000 "0000" [[Byte.x0f; Byte.x17]] [Some [Byte.x00; Byte.xff; Byte.xff]] []) /\
  @exchange sample_codec (AuthorizeCommand "0000")
    (mkSEM6000 "0000" [[Byte.x0f; Byte.x17]] [Some [Byte.x00; Byte.xff; Byte.xff]] []) =
    (Ok (AuthorizationNotification true), mkSEM6000 "0000" [] [] [frame 23 []]) /\
  ~ In [Byte.x0f; Byte.x17]
       (raw_notifications (mkSEM6000 "0000" [] [] [frame 23 []])).
Proof.
  split; [vm_compute; reflexivity|]. split; [vm_compute; reflexivity|].
  simpl. tauto.
Qed.

(** ** Session operations *)

Section OperationFacts.
Context {codec : Codec} {pylib : PyLib}.

(** Every operation is its exchange followed by its check of the decoded
    notification. *)
Lemma bind_exchange {A} (command : Command) (k : Notification -> M A) (s : SEM6000) :
  (_send_command command ;;; let! notification := consume_notification in k notification) s =
  match exchange command s with
  | (Ok notification, s1) => k notification s1
  | (Raise e, s1) => (Raise e, s1)
  end.
Proof.
  unfold exchange, bind.
  destruct (_send_command command s) as [[[]|e] s0]; [|reflexivity].
  destruct (consume_notification s0) as [[n|e] s1]; reflexivity.
Qed.

Lemma was_successful_confirmation (k : klass) (b : bool) :
  getattr (confirmation k b) "was_successful" = Ok (ABool b).
Proof. reflexivity. Qed.

Lemma isinstance_confirmation (k k' : klass) (b : bool) :
  isinstance (confirmation k b) k' = bool_decide (k = k').
Proof. reflexivity. Qed.

Lemma authorize_eq (s : SEM6000) :
  authorize s =
  match exchange (AuthorizeCommand (pin s)) s with
  | (Ok notification, s1) =>
      match wrong_class_or_unsuccessful notification K_AuthorizationNotification with
      | Ok true => (Raise (Exception "Authentication failed"), s1)
      | Ok false => (Ok notification, s1)
      | Raise e => (Raise e, s1)
      end
  | (Raise e, s1) => (Raise e, s1)
  end.
Proof.
  unfold authorize. unfold bind at 1. unfold get at 1. cbv beta iota zeta.
  rewrite bind_exchange.
  destruct (exchange (AuthorizeCommand (pin s)) s) as [[n|e] s1]; [|reflexivity].
  unfold bind, lift, raise, ret.
  destruct (wrong_class_or_unsuccessful n K_AuthorizationNotification) as [[]|];
    reflexivity.
Qed.

(** C5: when the notification decoded during [authorize] is an
    authorization confirmation carrying [was_successful = False], authorize
    raises its failure exception and returns nothing; any notification that
    authorize does return is an authorization confirmation whose
    [was_successful] is true. *)
Theorem authorize_unsuccessful_raises (s : SEM6000) :
  (forall s1,
      exchange (AuthorizeCommand (pin s)) s = (Ok (AuthorizationNotification false), s1) ->
      authorize s = (Raise (Exception "Authentication failed"), s1)) /\
  (forall notification s1,
      authorize s = (Ok notification, s1) ->
      cls notification = K_AuthorizationNotification /\
      (exists v, attrs notification !! "was_successful" = Some v /\ truthy v = true) /\
      notification <> AuthorizationNotification false).
Proof.
  split.
  - intros s1 H. rewrite authorize_eq, H. reflexivity.
  - intros n s1. rewrite authorize_eq.
    destruct (exchange (AuthorizeCommand (pin s)) s) as [[n'|e] s1']; [|discriminate].
    unfold wrong_class_or_unsuccessful, isinstance, getattr.
    destruct (bool_decide_reflect (cls n' = K_AuthorizationNotification)) as [Hc|Hc];
      simpl; [|discriminate].
    destruct (attrs n' !! "was_successful") as [v|] eqn:Hv; simpl; [|discriminate].
    destruct (truthy v) eqn:Ht; simpl; [|discriminate].
    intros H. inversion H; subst n' s1'. split; [exact Hc|]. split.
    + exists v. split; [exact Hv | exact Ht].
    + intros ->. unfold AuthorizationNotification, confirmation in Hv.
      simpl in Hv. rewrite lookup_singleton_eq in Hv.
      inversion Hv; subst v. discriminate Ht.
Qed.

Lemma request_settings_eq (s : SEM6000) :
  request_settings s =
  match exchange RequestSettingsCommand s with
  | (Ok notification, s1) =>
      if isinstance notification K_RequestedSettingsNotification
      then (Ok notification, s1)
      else (Raise (Exception "Request settings failed"), s1)
  | (Raise e, s1) => (Raise e, s1)
  end.
Proof.
  unfold request_settings. cbv zeta. rewrite bind_exchange.
  destruct (exchange RequestSettingsCommand s) as [[n|e] s1]; [|reflexivity].
  destruct (isinstance n K_RequestedSettingsNotification); reflexivity.
Qed.

(** C6: when the frame received during [request_settings] decodes to a
    notification of any class other than the settings snapshot, such as a
    power-switch confirmation, request_settings raises its failure
    exception and does not return that notification. *)
Theorem request_settings_wrong_variant_raises (s s1 : SEM6000) (notification : Notification) :
  exchange RequestSettingsCommand s = (Ok notification, s1) ->
  cls notification <> K_RequestedSettingsNotification ->
  request_settings s = (Raise (Exception "Request settings failed"), s1).
Proof.
  intros H Hc. rewrite request_settings_eq, H. unfold isinstance.
  now rewrite bool_decide_eq_false_2.
Qed.

End OperationFacts.

Lemma authorize_unsuccessful_raises_witness :
  @authorize sample_codec (session [Some (frame 23 [1%N])]) =
  (Raise (Exception "Authentication failed"),
   mkSEM6000 "0000" [] [] [frame 23 []]).
Proof.
  apply (proj1 (@authorize_unsuccessful_raises sample_codec
                  (session [Some (frame 23 [1%N])]))).
  vm_compute; reflexivity.
Defined.

Lemma request_settings_wrong_variant_raises_witness :
  @request_settings sample_codec (session [Some (frame 3 [0%N])]) =
  (Raise (Exception "Request settings failed"),
   mkSEM6000 "0000" [] [] [frame 16 []]).
Proof.
  apply (@request_settings_wrong_variant_raises sample_codec
           (session [Some (frame 3 [0%N])])
           (mkSEM6000 "0000" [] [] [frame 16 []])
           (PowerSwitchNotification true)).
  - vm_compute; reflexivity.
  - simpl. discriminate.
Defined.

Section VariantOnlyOperations.
Context {codec : Codec} {pylib : PyLib}.

(** What the four operations do with a decoded notification: hand it back
    when it is of class [k], raise [Exception(message)] otherwise. *)
Local Abbreviation variant_check k message notification s1 :=
  (if isinstance notification k then Ok notification
   else Raise (Exception message), s1).

Lemma after_exchange (k : klass) (message : string) (command : Command)
    (s s1 : SEM6000) (notification : Notification) :
  exchange command s = (Ok notification, s1) ->
  (_send_command command ;;;
   let! notification := consume_notification in
   if negb (isinstance notification k) then raise (Exception message)
   else ret notification) s = variant_check k message notification s1.
Proof.
  intros H. rewrite bind_exchange, H.
  destruct (isinstance notification k); reflexivity.
Qed.

(** C7: for [set_power_limit], [set_prices], [set_reduced_period] and
    [set_timer], once the arguments are converted and the exchange has
    decoded a notification, the class of that notification alone decides:
    a notification of the expected confirmation class is returned, whatever
    its [was_successful] says, and the operation raises exactly when the
    class differs. *)
Theorem variant_mismatch_is_sole_failure_signal
    (s s1 : SEM6000) (notification : Notification) :
  (forall power_limit_in_watt watt,
      py_int power_limit_in_watt = Ok watt ->
      exchange (SetPowerLimitCommand watt) s = (Ok notification, s1) ->
      set_power_limit power_limit_in_watt s =
      variant_check K_PowerLimitSetNotification "Set power limit failed"
        notification s1) /\
  (forall normal_price_in_cent reduced_price_in_cent normal reduced,
      py_int normal_price_in_cent = Ok normal ->
      py_int reduced_price_in_cent = Ok reduced ->
      exchange (SetPricesCommand normal reduced) s = (Ok notification, s1) ->
      set_prices normal_price_in_cent reduced_price_in_cent s =
      variant_check K_PricesSetNotification "Set prices failed" notification s1) /\
  (forall is_active start_isotime end_isotime start_time end_time,
      time_fromisoformat start_isotime = Ok start_time ->
      time_fromisoformat end_isotime = Ok end_time ->
      exchange (SetReducedPeriodCommand (_parse_boolean is_active)
                  (t_hour start_time * 60 + t_minute start_time)
                  (t_hour end_time * 60 + t_minute end_time)) s
        = (Ok notification, s1) ->
      set_reduced_period is_active start_isotime end_isotime s =
      variant_check K_ReducedPeriodSetNotification "Set reduced period failed"
        notification s1) /\
  (forall is_reset_timer is_action_turn_on delay_isotime time sum dt,
      time_fromisoformat delay_isotime = Ok time ->
      datetime_add datetime_now (t_hour time) (t_minute time) (t_second time) = Ok sum ->
      datetime_new (dt_year sum mod 100) (dt_month sum) (dt_day sum)
                   (dt_hour sum) (dt_minute sum) (dt_second sum) = Ok dt ->
      exchange (SetTimerCommand (_parse_boolean is_reset_timer)
                  (_parse_boolean is_action_turn_on)
                  (dt_second dt) (dt_minute dt) (dt_hour dt)
                  (dt_day dt) (dt_month dt) (dt_year dt)) s
        = (Ok notification, s1) ->
      set_timer is_reset_timer is_action_turn_on delay_isotime s =
      variant_check K_TimerSetNotification "Set timer failed" notification s1) /\
  (forall k message b,
      variant_check k message (confirmation k b) s1 = (Ok (confirmation k b), s1)) /\
  (forall k message,
      cls notification <> k ->
      variant_check k message notification s1 = (Raise (Exception message), s1)).
Proof.
  repeat split.
  - intros arg watt Hint Hex. unfold set_power_limit.
    unfold bind at 1. unfold lift at 1. rewrite Hint. cbv beta iota zeta.
    now apply after_exchange.
  - intros a1 a2 normal reduced H1 H2 Hex. unfold set_prices.
    unfold bind at 1. unfold lift at 1. rewrite H1. cbv beta iota zeta.
    unfold bind at 1. unfold lift at 1. rewrite H2. cbv beta iota zeta.
    now apply after_exchange.
  - intros a st en t1 t2 H1 H2 Hex. unfold set_reduced_period.
    unfold bind at 1. unfold lift at 1. rewrite H1. cbv beta iota zeta.
    unfold bind at 1. unfold lift at 1. rewrite H2. cbv beta iota zeta.
    now apply after_exchange.
  - intros r a d t sum dt H1 H2 H3 Hex. unfold set_timer.
    unfold bind at 1. unfold lift at 1. rewrite H1. cbv beta iota zeta.
    unfold bind at 1. unfold lift at 1. rewrite H2. cbv beta iota zeta.
    unfold bind at 1. unfold lift at 1. rewrite H3. cbv beta iota zeta.
    now apply after_exchange.
  - intros k message b.
    rewrite isinstance_confirmation. now rewrite bool_decide_eq_true_2.
  - intros k message Hc. unfold isinstance.
    now rewrite bool_decide_eq_false_2.
Qed.

End VariantOnlyOperations.

Lemma variant_mismatch_is_sole_failure_signal_witness :
  @set_power_limit sample_codec sample_pylib (PyStr "1500")
    (session [Some (frame 5 [1%N])]) =
    (Ok (PowerLimitSetNotification false),
     mkSEM6000 "0000" [] [] [frame 5 [5%N; 220%N]]) /\
  @set_timer sample_codec sample_pylib (PyBool false) (PyStr "on") "23:30"
    (session [Some (frame 8 [1%N])]) =
    (Ok (TimerSetNotification false),
     mkSEM6000 "0000" [] [] [frame 8 [0; 1; 0; 0; 10; 16; 3; 24]%N]) /\
  @set_timer sample_codec sample_pylib (PyBool false) (PyStr "on") "23:30"
    (session [Some (frame 5 [0%N])]) =
    (Raise (Exception "Set timer failed"),
     mkSEM6000 "0000" [] [] [frame 8 [0; 1; 0; 0; 10; 16; 3; 24]%N]).
Proof.
  split; [|split].
  - apply (proj1 (@variant_mismatch_is_sole_failure_signal sample_codec sample_pylib
                    (session [Some (frame 5 [1%N])])
                    (mkSEM6000 "0000" [] [] [frame 5 [5%N; 220%N]])
                    (PowerLimitSetNotification false))
                 (PyStr "1500") 1500);
      vm_compute; reflexivity.
  - apply (proj1 (proj2 (proj2 (proj2
             (@variant_mismatch_is_sole_failure_signal sample_codec sample_pylib
                (session [Some (frame 8 [1%N])])
                (mkSEM6000 "0000" [] [] [frame 8 [0; 1; 0; 0; 10; 16; 3; 24]%N])
                (TimerSetNotification false)))))
             (PyBool false) (PyStr "on") "23:30"
             (mkTime 23 30 0) (mkDateTime 2024 3 16 10 0 0)
             (mkDateTime 24 3 16 10 0 0));
      vm_compute; reflexivity.
  - apply (proj1 (proj2 (proj2 (proj2
             (@variant_mismatch_is_sole_failure_signal sample_codec sample_pylib
                (session [Some (frame 5 [0%N])])
                (mkSEM6000 "0000" [] [] [frame 8 [0; 1; 0; 0; 10; 16; 3; 24]%N])
                (PowerLimitSetNotification true)))))
             (PyBool false) (PyStr "on") "23:30"
             (mkTime 23 30 0) (mkDateTime 2024 3 16 10 0 0)
             (mkDateTime 24 3 16 10 0 0));
      vm_compute; reflexivity.
Defined.

(** ** Scheduler construction *)

Lemma SchedulerWeekday_of_value_error (v : Z) (e : exn) :
  SchedulerWeekday_of_value v = Raise e -> exists msg, e = ValueError msg.
Proof.
  unfold SchedulerWeekday_of_value.
  destruct (List.find _ weekday_members); intros H; inversion H. eauto.
Qed.

Lemma SchedulerWeekday_of_value_range (v : Z) :
  0 <= v <= 6 ->
  exists w, SchedulerWeekday_of_value v = Ok w /\ weekday_value w = v.
Proof.
  intros Hv.
  assert (v = 0 \/ v = 1 \/ v = 2 \/ v = 3 \/ v = 4 \/ v = 5 \/ v = 6) as Hcases by lia.
  repeat (destruct Hcases as [-> | Hcases]); [.. | subst v];
    eexists; split; reflexivity.
Qed.

Lemma convert_weekdays_nine (l : list weekday_arg) :
  In (WInt 9) l -> exists msg, convert_weekdays l = Raise (ValueError msg).
Proof.
  induction l as [|x rest IH]; intros Hin; [destruct Hin|].
  destruct Hin as [-> | Hin].
  - eexists. vm_compute. reflexivity.
  - destruct (IH Hin) as [msg Hrest]. destruct x as [v | w | str0]; simpl.
    + destruct (SchedulerWeekday_of_value v) as [w|e] eqn:Hv; simpl.
      * rewrite Hrest. simpl. eauto.
      * destruct (SchedulerWeekday_of_value_error _ _ Hv) as [msg' ->]. eauto.
    + rewrite Hrest. simpl. eauto.
    + rewrite Hrest. simpl. eauto.
Qed.

Lemma convert_weekdays_valid (vs : list Z) :
  Forall (fun v => 0 <= v <= 6) vs ->
  exists days, convert_weekdays (map WInt vs) = Ok (map WDay days)
               /\ map weekday_value days = vs.
Proof.
  induction 1 as [|v vs Hv _ IH]; [exists []; split; reflexivity|].
  destruct IH as (days & Hconv & Hvals).
  destruct (SchedulerWeekday_of_value_range v Hv) as (w & Hw & Hwv).
  exists (w :: days). simpl. rewrite Hw. simpl. rewrite Hconv. simpl.
  split; [reflexivity | now rewrite Hwv, Hvals].
Qed.

Lemma assert_weekdays_days (days : list SchedulerWeekday) :
  assert_weekdays (map WDay days) = Ok days.
Proof. induction days as [|w days IH]; simpl; [|rewrite IH]; reflexivity. Qed.

(** C8: constructing a [Scheduler] whose [repeat_on_weekdays] contains the
    integer 9 raises [ValueError] (the enum lookup rejects it); a list of
    integers in 0..6 is accepted, each value becoming the weekday with
    that value, in the order SUNDAY = 0, MONDAY = 1, ..., SATURDAY = 6. *)
Theorem Scheduler_init_weekday_validation
    (is_active is_action_turn_on : bool) (year month day hour minute : Z) :
  (forall l, In (WInt 9) l ->
     exists msg, Scheduler_init is_active is_action_turn_on l
                   year month day hour minute = Raise (ValueError msg)) /\
  Scheduler_init is_active is_action_turn_on [WInt 9] year month day hour minute
    = Raise (ValueError "9 is not a valid SchedulerWeekday") /\
  (forall vs, Forall (fun v => 0 <= v <= 6) vs ->
     exists days,
       Scheduler_init is_active is_action_turn_on (map WInt vs)
         year month day hour minute
       = Ok (mkScheduler is_active is_action_turn_on days
               year month day hour minute)
       /\ map weekday_value days = vs) /\
  map SchedulerWeekday_of_value [0; 1; 2; 3; 4; 5; 6] =
  map Ok [SUNDAY; MONDAY; TUESDAY; WEDNESDAY; THURSDAY; FRIDAY; SATURDAY].
Proof.
  split; [|split; [|split]].
  - intros l Hin. destruct (convert_weekdays_nine l Hin) as [msg Hl].
    exists msg. unfold Scheduler_init. now rewrite Hl.
  - vm_compute. reflexivity.
  - intros vs Hvs. destruct (convert_weekdays_valid vs Hvs) as (days & Hconv & Hvals).
    exists days. unfold Scheduler_init. rewrite Hconv. simpl.
    rewrite assert_weekdays_days. simpl. split; [reflexivity | exact Hvals].
  - reflexivity.
Qed.

Lemma Scheduler_init_weekday_validation_witness :
  (exists msg, Scheduler_init true false [WInt 1; WStr "x"; WInt 9] 2024 3 15 6 30
               = Raise (ValueError msg)) /\
  (exists days, Scheduler_init true false (map WInt [0; 6; 3]) 2024 3 15 6 30
                = Ok (mkScheduler true false days 2024 3 15 6 30)
                /\ map weekday_value days = [0; 6; 3]).
Proof.
  split.
  - apply (proj1 (Scheduler_init_weekday_validation true false 2024 3 15 6 30)).
    simpl. auto.
  - apply (proj1 (proj2 (proj2
             (Scheduler_init_weekday_validation true false 2024 3 15 6 30)))).
    repeat constructor; lia.
Defined.

(** ** Boolean arguments *)

Lemma lower_ascii_idempotent (c : ascii) : lower_ascii (lower_ascii c) = lower_ascii c.
Proof.
  destruct c as [[] [] [] [] [] [] [] []]; reflexivity.
Qed.

Lemma lower_idempotent (s : string) : lower (lower s) = lower s.
Proof.
  induction s as [|c s IH]; simpl; [reflexivity|].
  now rewrite lower_ascii_idempotent, IH.
Qed.

(** C9: [_parse_boolean] returns [True] exactly when the lowercased string
    form of its argument is "true", "on" or "1"; "yes", "enabled" and the
    empty string give [False]; arguments that agree after lowercasing get
    the same answer. *)
Theorem parse_boolean_iff (boolean_string : pyval) :
  (_parse_boolean boolean_string = true <->
   lower (str boolean_string) = "true" \/
   lower (str boolean_string) = "on" \/
   lower (str boolean_string) = "1") /\
  _parse_boolean (PyStr "yes") = false /\
  _parse_boolean (PyStr "enabled") = false /\
  _parse_boolean (PyStr "") = false /\
  (forall x y, lower (str x) = lower (str y) -> _parse_boolean x = _parse_boolean y) /\
  (forall s, _parse_boolean (PyStr (lower s)) = _parse_boolean (PyStr s)).
Proof.
  repeat split; try reflexivity.
  - unfold _parse_boolean.
    destruct (String.eqb_spec (lower (str boolean_string)) "1"); [auto|].
    destruct (String.eqb_spec (lower (str boolean_string)) "on"); [auto|].
    destruct (String.eqb_spec (lower (str boolean_string)) "true"); [auto|].
    discriminate.
  - unfold _parse_boolean. intros [H | [H | H]]; rewrite H; reflexivity.
  - intros x y H. unfold _parse_boolean. now rewrite H.
  - intros s. unfold _parse_boolean. simpl. now rewrite lower_idempotent.
Qed.

Lemma parse_boolean_iff_witness :
  _parse_boolean (PyStr "TrUe") = true /\
  _parse_boolean (PyStr "ON") = _parse_boolean (PyStr "on") /\
  _parse_boolean (PyBool true) = true /\
  _parse_boolean (PyInt 1) = true.
Proof.
  split; [|split; [|split]].
  - apply (proj1 (parse_boolean_iff (PyStr "TrUe"))). left. reflexivity.
  - apply (proj1 (proj2 (proj2 (proj2 (proj2 (parse_boolean_iff (PyStr "")))))) 
             (PyStr "ON") (PyStr "on")).
    reflexivity.
  - apply (proj1 (parse_boolean_iff (PyBool true))). left. reflexivity.
  - apply (proj1 (parse_boolean_iff (PyInt 1))). right. right. reflexivity.
Defined.

(** ** Scheduler pages *)

Section SchedulerPages.
Context {codec : Codec}.

Lemma request_scheduler_eq (s : SEM6000) :
  request_scheduler s =
  match exchange (RequestSchedulerCommand 0) s with
  | (Ok notification, s1) =>
      if isinstance notification K_SchedulerRequestedNotification then
        match getattr notification "number_of_schedulers" with
        | Ok count =>
            match floordiv4 count with
            | Ok max_page_number =>
                request_further_pages (seqZ 1 max_page_number) notification s1
            | Raise e => (Raise e, s1)
            end
        | Raise e => (Raise e, s1)
        end
      else (Raise (Exception "Request scheduler 1st page failed"), s1)
  | (Raise e, s1) => (Raise e, s1)
  end.
Proof.
  unfold request_scheduler. cbv zeta. rewrite bind_exchange.
  destruct (exchange (RequestSchedulerCommand 0) s) as [[n|e] s1]; [|reflexivity].
  destruct (isinstance n K_SchedulerRequestedNotification); [|reflexivity].
  unfold bind, lift. simpl.
  destruct (getattr n "number_of_schedulers") as [count|e]; [|reflexivity].
  destruct (floordiv4 count); reflexivity.
Qed.

Lemma request_further_pages_cons (page_number : Z) (rest : list Z)
    (notification : Notification) (s : SEM6000) :
  request_further_pages (page_number :: rest) notification s =
  match exchange (RequestSchedulerCommand page_number) s with
  | (Ok further_notification, s1) =>
      if isinstance further_notification K_SchedulerRequestedNotification then
        match getattr notification "schedulers" with
        | Ok target =>
            match extend_method target with
            | Ok extend =>
                match getattr further_notification "schedulers" with
                | Ok arg =>
                    match extend arg with
                    | Ok extended =>
                        request_further_pages rest
                          (store_attr notification "schedulers" extended) s1
                    | Raise e => (Raise e, s1)
                    end
                | Raise e => (Raise e, s1)
                end
            | Raise e => (Raise e, s1)
            end
        | Raise e => (Raise e, s1)
        end
      else (Raise (Exception "Request scheduler 2nd page failed"), s1)
  | (Raise e, s1) => (Raise e, s1)
  end.
Proof.
  simpl. rewrite bind_exchange.
  destruct (exchange (RequestSchedulerCommand page_number) s) as [[f|e] s1];
    [|reflexivity].
  destruct (isinstance f K_SchedulerRequestedNotification); [|reflexivity].
  unfold bind, lift. simpl.
  destruct (getattr notification "schedulers") as [target|e]; [|reflexivity].
  destruct (extend_method target) as [extend|e]; [|reflexivity].
  destruct (getattr f "schedulers") as [arg|e]; [|reflexivity].
  destruct (extend arg); reflexivity.
Qed.

(** An exchange writes the encoded command once, after what was written
    before. *)
Lemma exchange_written (command : Command) (encoded : bytes)
    (s s1 : SEM6000) (r : result Notification) :
  encode command = Ok encoded ->
  exchange command s = (r, s1) ->
  written s1 = written s ++ [encoded].
Proof.
  intros Henc. unfold exchange, _send_command, _wait_for_notifications, bind, lift, modify.
  rewrite Henc. simpl.
  destruct (wait_loop _ _) as [inc raw] eqn:Hw. simpl.
  rewrite consume_notification_eq. simpl.
  destruct (has_final_raw_notification raw).
  - destruct (parse (concat raw)); intros H; inversion H; reflexivity.
  - intros H; inversion H; reflexivity.
Qed.

(** What [SchedulerRequestedNotification.__init__] stores: the count and
    the entries, and nothing under the name [schedulers]. *)
Lemma SchedulerRequestedNotification_attrs (count : Z) (entries : list SchedulerEntry) :
  getattr (SchedulerRequestedNotification count entries) "number_of_schedulers"
    = Ok (AInt count) /\
  getattr (SchedulerRequestedNotification count entries) "scheduler_entries"
    = Ok (AEntries entries) /\
  getattr (SchedulerRequestedNotification count entries) "schedulers"
    = Raise (AttributeError "SchedulerRequestedNotification" "schedulers").
Proof. repeat split. Qed.

(** With fewer than four schedulers reported, page 0 is the only request
    and its notification is returned as received. *)
Lemma request_scheduler_single_page (s s1 : SEM6000)
    (count : Z) (entries : list SchedulerEntry) :
  exchange (RequestSchedulerCommand 0) s
    = (Ok (SchedulerRequestedNotification count entries), s1) ->
  count < 4 ->
  request_scheduler s = (Ok (SchedulerRequestedNotification count entries), s1).
Proof.
  intros H Hcount. rewrite request_scheduler_eq, H.
  change (isinstance (SchedulerRequestedNotification count entries)
            K_SchedulerRequestedNotification) with true. cbv iota.
  rewrite (proj1 (SchedulerRequestedNotification_attrs count entries)).
  unfold floordiv4.
  rewrite seqZ_nil; [reflexivity|].
  apply Z.lt_succ_r. apply Z.div_lt_upper_bound; lia.
Qed.

(** C2: with four or more schedulers reported by a well-formed first page
    and a well-formed second page received, [request_scheduler] returns no
    aggregate: reading [notification.schedulers] raises [AttributeError]
    right after the exchange for page 1. *)
Theorem request_scheduler_second_page_raises (s s1 s2 : SEM6000)
    (count : Z) (entries : list SchedulerEntry) (further_notification : Notification) :
  exchange (RequestSchedulerCommand 0) s
    = (Ok (SchedulerRequestedNotification count entries), s1) ->
  4 <= count ->
  exchange (RequestSchedulerCommand 1) s1 = (Ok further_notification, s2) ->
  cls further_notification = K_SchedulerRequestedNotification ->
  request_scheduler s
    = (Raise (AttributeError "SchedulerRequestedNotification" "schedulers"), s2).
Proof.
  intros H0 Hcount H1 Hcls. rewrite request_scheduler_eq, H0.
  change (isinstance (SchedulerRequestedNotification count entries)
            K_SchedulerRequestedNotification) with true. cbv iota.
  rewrite (proj1 (SchedulerRequestedNotification_attrs count entries)).
  unfold floordiv4.
  rewrite seqZ_cons by (apply Z.div_str_pos; lia).
  rewrite request_further_pages_cons, H1. unfold isinstance.
  rewrite bool_decide_eq_true_2 by exact Hcls. reflexivity.
Qed.

(** Under the same conditions the requests written are those for pages 0
    and 1, whatever the count calls for. *)
Lemma request_scheduler_two_requests (s s1 s2 : SEM6000)
    (first further_notification : result Notification) (page_0 page_1 : bytes) :
  encode (RequestSchedulerCommand 0) = Ok page_0 ->
  encode (RequestSchedulerCommand 1) = Ok page_1 ->
  exchange (RequestSchedulerCommand 0) s = (first, s1) ->
  exchange (RequestSchedulerCommand 1) s1 = (further_notification, s2) ->
  written s2 = written s ++ [page_0; page_1].
Proof.
  intros E0 E1 H0 H1.
  rewrite (exchange_written _ _ _ _ _ E1 H1), (exchange_written _ _ _ _ _ E0 H0).
  now rewrite <- app_assoc.
Qed.

End SchedulerPages.

Lemma request_scheduler_second_page_raises_witness :
  @request_scheduler sample_codec
    (session [Some (page_frame 4 [1; 2; 3; 4]%N); Some (page_frame 4 [])]) =
  (Raise (AttributeError "SchedulerRequestedNotification" "schedulers"),
   mkSEM6000 "0000" [] [] [frame 20 [0%N]; frame 20 [1%N]]).
Proof.
  apply (@request_scheduler_second_page_raises sample_codec
           (session [Some (page_frame 4 [1; 2; 3; 4]%N); Some (page_frame 4 [])])
           (mkSEM6000 "0000" [] [Some (page_frame 4 [])] [frame 20 [0%N]])
           (mkSEM6000 "0000" [] [] [frame 20 [0%N]; frame 20 [1%N]])
           4
           (map (fun slot => mkSchedulerEntry slot sample_scheduler) [1; 2; 3; 4])
           (SchedulerRequestedNotification 4 [])).
  - vm_compute; reflexivity.
  - lia.
  - vm_compute; reflexivity.
  - reflexivity.
Defined.

(** C1: a first page reporting 8 schedulers calls for pages 0, 1 and 2;
    with all three page frames on the link, [request_scheduler] writes the
    requests for pages 0 and 1 only, raises [AttributeError], and leaves
    the frame for page 2 unread. *)
Theorem request_scheduler_eight_stops_after_page_1 :
  @request_scheduler sample_codec
    (session [Some (page_frame 8 [1; 2; 3; 4]%N);
              Some (page_frame 8 [5; 6; 7; 8]%N);
              Some (page_frame 8 [])]) =
  (Raise (AttributeError "SchedulerRequestedNotification" "schedulers"),
   mkSEM6000 "0000" [] [Some (page_frame 8 [])]
     [frame 20 [0%N]; frame 20 [1%N]]) /\
  map (fun page => @encode sample_codec (RequestSchedulerCommand page))
      (0 :: seqZ 1 (8 / 4)) =
  [Ok (frame 20 [0%N]); Ok (frame 20 [1%N]); Ok (frame 20 [2%N])].
Proof. split; vm_compute; reflexivity. Qed.

(** ** The session around an exchange *)

Section ExchangeFacts.
Context {codec : Codec}.

Lemma exchange_eq (command : Command) (s : SEM6000) :
  exchange command s =
  match encode command with
  | Ok encoded =>
      consume_notification
        (mkSEM6000 (pin s)
           (snd (wait_loop (incoming s) (raw_notifications s)))
           (fst (wait_loop (incoming s) (raw_notifications s)))
           (written s ++ [encoded]))
  | Raise e => (Raise e, s)
  end.
Proof.
  unfold exchange, _send_command, _wait_for_notifications, bind, lift, modify.
  destruct (encode command) as [encoded|e]; [|reflexivity]. simpl.
  destruct (wait_loop (incoming s) (raw_notifications s)) as [inc raw].
  reflexivity.
Qed.

Lemma wait_loop_consumes (inc : list (option bytes)) (raw : list bytes) :
  exists used, inc = used ++ fst (wait_loop inc raw).
Proof.
  revert raw. induction inc as [|[data|] inc IH]; intros raw; simpl.
  - exists []. reflexivity.
  - destruct (has_final_raw_notification (handleNotification data raw)).
    + exists [Some data]. reflexivity.
    + destruct (IH (handleNotification data raw)) as [used H].
      exists (Some data :: used). simpl. now rewrite <- H.
  - exists [None]. reflexivity.
Qed.

Lemma has_final_last_only (earlier : list bytes) (fragment : bytes) :
  has_final_raw_notification (earlier ++ [fragment]) =
  has_final_raw_notification [fragment].
Proof.
  rewrite has_final_snoc. change [fragment] with ([] ++ [fragment]).
  now rewrite has_final_snoc.
Qed.

(** Fragments that do not complete a frame are all taken into the buffer;
    the wait goes on behind them. *)
Lemma wait_loop_fragments (fragments : list bytes)
    (rest : list (option bytes)) (raw : list bytes) :
  Forall (fun f => has_final_raw_notification [f] = false) fragments ->
  wait_loop (map Some fragments ++ rest) raw = wait_loop rest (raw ++ fragments).
Proof.
  intros H. revert raw. induction H as [|f fragments Hf _ IH]; intros raw; simpl.
  - now rewrite app_nil_r.
  - unfold handleNotification. rewrite has_final_last_only, Hf.
    rewrite IH. now rewrite <- app_assoc.
Qed.

Lemma exchange_encode_error (command : Command) (e : exn) (s : SEM6000) :
  encode command = Raise e ->
  exchange command s = (Raise e, s).
Proof. intros H. rewrite exchange_eq. now rewrite H. Qed.

Lemma exchange_timeout_run (command : Command) (encoded : bytes) (s : SEM6000)
    (fragments : list bytes) (timeout : list (option bytes)) :
  encode command = Ok encoded ->
  Forall (fun f => has_final_raw_notification [f] = false) fragments ->
  incoming s = map Some fragments ++ timeout ->
  timeout = [] \/ (exists rest, timeout = None :: rest) ->
  has_final_raw_notification (raw_notifications s ++ fragments) = false ->
  exchange command s =
  (Raise (Exception "Incomplete notification data"),
   mkSEM6000 (pin s) (raw_notifications s ++ fragments) (tail timeout)
     (written s ++ [encoded])).
Proof.
  intros Henc Hfr Hinc Htimeout Hfinal.
  rewrite exchange_eq, Henc, Hinc, (wait_loop_fragments _ _ _ Hfr).
  assert (wait_loop timeout (raw_notifications s ++ fragments)
          = (tail timeout, raw_notifications s ++ fragments)) as ->.
  { destruct Htimeout as [-> | [rest ->]]; reflexivity. }
  rewrite consume_notification_eq. simpl. now rewrite Hfinal.
Qed.

Lemma exchange_reassembles_run (command : Command) (encoded : bytes) (s : SEM6000)
    (fragments : list bytes) (final : bytes) (rest : list (option bytes))
    (notification : Notification) :
  encode command = Ok encoded ->
  Forall (fun f => has_final_raw_notification [f] = false) fragments ->
  has_final_raw_notification [final] = true ->
  incoming s = map Some fragments ++ Some final :: rest ->
  parse (concat (raw_notifications s ++ fragments ++ [final])) = Ok notification ->
  exchange command s =
  (Ok notification, mkSEM6000 (pin s) [] rest (written s ++ [encoded])).
Proof.
  intros Henc Hfr Hfinal Hinc Hparse.
  rewrite exchange_eq, Henc, Hinc, (wait_loop_fragments _ _ _ Hfr).
  assert (has_final_raw_notification
            ((raw_notifications s ++ fragments) ++ [final]) = true) as Hf.
  { now rewrite has_final_last_only. }
  simpl. unfold handleNotification. rewrite Hf. simpl.
  rewrite consume_notification_eq. simpl. rewrite Hf.
  rewrite <- app_assoc, Hparse. reflexivity.
Qed.

Lemma exchange_frame_run (command : Command) (s s1 : SEM6000)
    (r : result Notification) :
  exchange command s = (r, s1) ->
  pin s1 = pin s /\
  (exists used, incoming s = used ++ incoming s1) /\
  (written s1 = written s \/
   exists encoded, encode command = Ok encoded /\ written s1 = written s ++ [encoded]) /\
  (forall notification, r = Ok notification -> raw_notifications s1 = []).
Proof.
  rewrite exchange_eq.
  destruct (encode command) as [encoded|e].
  - rewrite consume_notification_eq. cbn [raw_notifications].
    destruct (wait_loop_consumes (incoming s) (raw_notifications s)) as [used Hused].
    destruct (has_final_raw_notification _).
    + destruct (parse _); intros H; inversion H; subst; simpl;
        (split; [reflexivity|]); (split; [eauto|]); (split; [eauto|]);
        intros n Hn; [reflexivity | discriminate Hn].
    + intros H; inversion H; subst; simpl.
      split; [reflexivity|]. split; [eauto|]. split; [eauto|].
      intros n Hn; discriminate Hn.
  - intros H; inversion H; subst.
    split; [reflexivity|]. split; [exists []; reflexivity|]. split; [auto|].
    intros n Hn; discriminate Hn.
Qed.

End ExchangeFacts.

(** ** Single-exchange operations *)

Section SingleExchangeFacts.
Context {codec : Codec}.

Lemma confirmation_operation_eq (k : klass) (message : string)
    (command : Command) (s : SEM6000) :
  (_send_command command ;;;
   let! notification := consume_notification in
   let! failed := lift (wrong_class_or_unsuccessful notification k) in
   if failed then raise (Exception message) else ret notification) s =
  match exchange command s with
  | (Ok notification, s1) =>
      (match wrong_class_or_unsuccessful notification k with
       | Ok true => Raise (Exception message)
       | Ok false => Ok notification
       | Raise e => Raise e
       end, s1)
  | (Raise e, s1) => (Raise e, s1)
  end.
Proof.
  rewrite bind_exchange.
  destruct (exchange command s) as [[n|e] s1]; [|reflexivity].
  unfold bind, lift, raise, ret.
  destruct (wrong_class_or_unsuccessful n k) as [[]|]; reflexivity.
Qed.

Lemma variant_operation_eq (k : klass) (message : string)
    (command : Command) (s : SEM6000) :
  (_send_command command ;;;
   let! notification := consume_notification in
   if negb (isinstance notification k) then raise (Exception message)
   else ret notification) s =
  match exchange command s with
  | (Ok notification, s1) =>
      (if isinstance notification k then Ok notification
       else Raise (Exception message), s1)
  | (Raise e, s1) => (Raise e, s1)
  end.
Proof.
  rewrite bind_exchange.
  destruct (exchange command s) as [[n|e] s1]; [|reflexivity].
  destruct (isinstance n k); reflexivity.
Qed.

(** Each operation of the table is its exchange followed by a check that
    only looks at the decoded notification. *)
Lemma single_exchange_operation_eq (new_pin : string)
    (op : M Notification) (command : SEM6000 -> Command) :
  In (op, command) (single_exchange_operations new_pin) ->
  exists check : Notification -> option exn,
    forall s,
      op s =
      match exchange (command s) s with
      | (Ok notification, s1) =>
          (match check notification with
           | None => Ok notification
           | Some e => Raise e
           end, s1)
      | (Raise e, s1) => (Raise e, s1)
      end.
Proof.
  pose (confirm k message := fun n =>
          match wrong_class_or_unsuccessful n k with
          | Ok true => Some (Exception message)
          | Ok false => None
          | Raise e => Some e
          end).
  pose (variant k message := fun n =>
          if isinstance n k then None else Some (Exception message)).
  assert (forall k message c s,
            match exchange c s with
            | (Ok n, s1) =>
                (match wrong_class_or_unsuccessful n k with
                 | Ok true => Raise (Exception message)
                 | Ok false => Ok n
                 | Raise e => Raise e
                 end, s1)
            | (Raise e, s1) => (Raise e, s1)
            end =
            match exchange c s with
            | (Ok n, s1) =>
                (match confirm k message n with None => Ok n | Some e => Raise e end, s1)
            | (Raise e, s1) => (Raise e, s1)
            end) as Hconfirm.
  { intros k message c s. destruct (exchange c s) as [[n|e] s1]; [|reflexivity].
    unfold confirm. destruct (wrong_class_or_unsuccessful n k) as [[]|]; reflexivity. }
  assert (forall k message c s,
            match exchange c s with
            | (Ok n, s1) =>
                (if isinstance n k then Ok n else Raise (Exception message), s1)
            | (Raise e, s1) => (Raise e, s1)
            end =
            match exchange c s with
            | (Ok n, s1) =>
                (match variant k message n with None => Ok n | Some e => Raise e end, s1)
            | (Raise e, s1) => (Raise e, s1)
            end) as Hvariant.
  { intros k message c s. destruct (exchange c s) as [[n|e] s1]; [|reflexivity].
    unfold variant. destruct (isinstance n k); reflexivity. }
  intros Hin. simpl in Hin.
  repeat (destruct Hin as [Hin | Hin]; [inversion Hin; subst op command; clear Hin|]);
    [ exists (confirm K_AuthorizationNotification "Authentication failed")
    | exists (confirm K_ChangePinNotification "Change PIN failed")
    | exists (confirm K_ResetPinNotification "Reset PIN failed")
    | exists (confirm K_PowerSwitchNotification "Power on failed")
    | exists (confirm K_PowerSwitchNotification "Power off failed")
    | exists (confirm K_LEDSwitchNotification "LED on failed")
    | exists (confirm K_LEDSwitchNotification "LED off failed")
    | exists (variant K_RequestedSettingsNotification "Request settings failed")
    | exists (variant K_RequestedTimerStatusNotification "Request timer status failed")
    | destruct Hin ];
    intros s; rewrite <- ?Hconfirm, <- ?Hvariant.
  - unfold authorize. unfold bind at 1. unfold get at 1. cbv beta iota zeta.
    apply confirmation_operation_eq.
  - unfold change_pin. unfold bind at 1. unfold get at 1. cbv beta iota zeta.
    apply confirmation_operation_eq.
  - apply confirmation_operation_eq.
  - apply confirmation_operation_eq.
  - apply confirmation_operation_eq.
  - apply confirmation_operation_eq.
  - apply confirmation_operation_eq.
  - apply variant_operation_eq.
  - apply variant_operation_eq.
Qed.

End SingleExchangeFacts.

Section SessionProperties.
Context {codec : Codec}.

(** X1: when the link delivers fragments none of which ends in the
    sentinel and then times out (or has nothing more), and either at least
    one fragment was delivered or the buffer did not already end in a
    complete fragment, the exchange, and with it every single-exchange
    operation, raises the incomplete-frame exception; the command has been
    written, the fragments stay in the buffer behind what was buffered
    before, and the script is consumed up to and including the timeout. *)
Theorem timeout_raises_incomplete (command : Command) (encoded : bytes)
    (s : SEM6000) (fragments : list bytes) (timeout : list (option bytes)) :
  encode command = Ok encoded ->
  Forall (fun f => has_final_raw_notification [f] = false) fragments ->
  incoming s = map Some fragments ++ timeout ->
  timeout = [] \/ (exists rest, timeout = None :: rest) ->
  fragments <> [] \/ has_final_raw_notification (raw_notifications s) = false ->
  exchange command s =
    (Raise (Exception "Incomplete notification data"),
     mkSEM6000 (pin s) (raw_notifications s ++ fragments) (tail timeout)
       (written s ++ [encoded])) /\
  (forall new_pin op cmd,
      In (op, cmd) (single_exchange_operations new_pin) ->
      cmd s = command ->
      op s =
      (Raise (Exception "Incomplete notification data"),
       mkSEM6000 (pin s) (raw_notifications s ++ fragments) (tail timeout)
         (written s ++ [encoded]))).
Proof.
  intros Henc Hfr Hinc Htimeout Hbuffer.
  assert (has_final_raw_notification (raw_notifications s ++ fragments) = false)
    as Hfinal.
  { destruct fragments as [|f0 fs] eqn:Hfs.
    - destruct Hbuffer as [Hne | Hraw]; [congruence|].
      rewrite app_nil_r. exact Hraw.
    - destruct (exists_last (l := f0 :: fs)) as (earlier & f & Hlast);
        [discriminate|].
      rewrite Hlast, app_assoc, has_final_last_only.
      rewrite Hlast in Hfr. apply Forall_app in Hfr as [_ Hf].
      inversion Hf; assumption. }
  pose proof (exchange_timeout_run _ _ _ _ _ Henc Hfr Hinc Htimeout Hfinal) as Hex.
  split; [exact Hex|].
  intros new_pin op cmd Hin Hcmd.
  destruct (single_exchange_operation_eq _ _ _ Hin) as [check Hop].
  rewrite Hop, Hcmd, Hex. reflexivity.
Qed.

(** X2: a frame that arrives split over several fragments, only the last
    of which ends in the sentinel, is parsed as the concatenation of
    everything buffered before the exchange followed by the fragments in
    order of arrival; on a successful parse the buffer is emptied and the
    script behind the last fragment is left unread.  A single-exchange
    operation then returns that notification or raises, in that state. *)
Theorem fragments_are_reassembled (command : Command) (encoded : bytes)
    (s : SEM6000) (fragments : list bytes) (final : bytes)
    (rest : list (option bytes)) (notification : Notification) :
  encode command = Ok encoded ->
  Forall (fun f => has_final_raw_notification [f] = false) fragments ->
  has_final_raw_notification [final] = true ->
  incoming s = map Some fragments ++ Some final :: rest ->
  parse (concat (raw_notifications s ++ fragments ++ [final])) = Ok notification ->
  exchange command s =
    (Ok notification, mkSEM6000 (pin s) [] rest (written s ++ [encoded])) /\
  (forall new_pin op cmd,
      In (op, cmd) (single_exchange_operations new_pin) ->
      cmd s = command ->
      exists r,
        op s = (r, mkSEM6000 (pin s) [] rest (written s ++ [encoded])) /\
        (r = Ok notification \/ exists e, r = Raise e)).
Proof.
  intros Henc Hfr Hfinal Hinc Hparse.
  pose proof (exchange_reassembles_run _ _ _ _ _ _ _ Henc Hfr Hfinal Hinc Hparse)
    as Hex.
  split; [exact Hex|].
  intros new_pin op cmd Hin Hcmd.
  destruct (single_exchange_operation_eq _ _ _ Hin) as [check Hop].
  rewrite Hop, Hcmd, Hex.
  destruct (check notification) as [e|]; eexists; split; eauto.
Qed.

(** X3: whatever a single-exchange operation does, it keeps the session's
    pin (also [change_pin], when the device confirms the new pin), only
    takes entries off the front of the link script, and appends at most
    its one encoded command to what was written; when it returns a
    notification, that is the notification the exchange decoded and the
    buffer is empty. *)
Theorem operation_frame (new_pin : string) (op : M Notification)
    (cmd : SEM6000 -> Command) (s s1 : SEM6000) (r : result Notification) :
  In (op, cmd) (single_exchange_operations new_pin) ->
  op s = (r, s1) ->
  pin s1 = pin s /\
  (exists used, incoming s = used ++ incoming s1) /\
  (written s1 = written s \/
   exists encoded, encode (cmd s) = Ok encoded /\
                   written s1 = written s ++ [encoded]) /\
  (forall notification,
      r = Ok notification ->
      exchange (cmd s) s = (Ok notification, s1) /\ raw_notifications s1 = []).
Proof.
  intros Hin Hop.
  destruct (single_exchange_operation_eq _ _ _ Hin) as [check Hcheck].
  rewrite Hcheck in Hop.
  destruct (exchange (cmd s) s) as [r0 s0] eqn:Hex.
  assert (s0 = s1) as ->.
  { destruct r0 as [n|e]; inversion Hop; reflexivity. }
  destruct (exchange_frame_run _ _ _ _ Hex) as (Hpin & Hinc & Hwr & Hraw).
  split; [exact Hpin|]. split; [exact Hinc|]. split; [exact Hwr|].
  intros n ->. destruct r0 as [n0|e]; [|discriminate Hop]. split.
  - destruct (check n0); inversion Hop. reflexivity.
  - eapply Hraw. reflexivity.
Qed.

(** X4: when the encoder rejects the command, a single-exchange operation
    and [request_scheduler] raise the encoder's exception with the session
    untouched: nothing is written, the link is not waited on, buffered
    fragments stay. *)
Theorem encode_error_leaves_session (s : SEM6000) (e : exn) :
  (forall new_pin op cmd,
      In (op, cmd) (single_exchange_operations new_pin) ->
      encode (cmd s) = Raise e ->
      op s = (Raise e, s)) /\
  (encode (RequestSchedulerCommand 0) = Raise e ->
   request_scheduler s = (Raise e, s)).
Proof.
  split.
  - intros new_pin op cmd Hin Henc.
    destruct (single_exchange_operation_eq _ _ _ Hin) as [check Hop].
    rewrite Hop, (exchange_encode_error _ _ _ Henc). reflexivity.
  - intros Henc. rewrite request_scheduler_eq.
    rewrite (exchange_encode_error _ _ _ Henc). reflexivity.
Qed.

End SessionProperties.

(** ** Confirmation and snapshot operations *)

Section OperationChecks.
Context {codec : Codec}.

(** What a confirmation-style operation [op], sending [command] and
    expecting class [k], does with the outcome of its exchange. *)
Local Abbreviation confirms op command k message s :=
  ((forall notification s1,
       op s = (Ok notification, s1) ->
       exchange command s = (Ok notification, s1) /\
       cls notification = k /\
       exists v, attrs notification !! "was_successful" = Some v /\ truthy v = true) /\
   (forall k' was_successful s1,
       exchange command s = (Ok (confirmation k' was_successful), s1) ->
       k' <> k \/ was_successful = false ->
       op s = (Raise (Exception message), s1))).

Lemma confirmation_operation_confirms (op : M Notification) (command : Command)
    (k : klass) (message : string) (s : SEM6000) :
  op s =
  match exchange command s with
  | (Ok notification, s1) =>
      (match wrong_class_or_unsuccessful notification k with
       | Ok true => Raise (Exception message)
       | Ok false => Ok notification
       | Raise e => Raise e
       end, s1)
  | (Raise e, s1) => (Raise e, s1)
  end ->
  confirms op command k message s.
Proof.
  intros Hop. split.
  - intros n s1. rewrite Hop.
    destruct (exchange command s) as [[n'|e] s1']; [|discriminate].
    unfold wrong_class_or_unsuccessful, isinstance, getattr.
    destruct (bool_decide_reflect (cls n' = k)) as [Hc|Hc]; simpl; [|discriminate].
    destruct (attrs n' !! "was_successful") as [v|] eqn:Hv; simpl; [|discriminate].
    destruct (truthy v) eqn:Ht; simpl; [|discriminate].
    intros H. inversion H; subst n' s1'. eauto.
  - intros k' b s1 Hex Hbad. rewrite Hop, Hex.
    unfold wrong_class_or_unsuccessful. rewrite isinstance_confirmation.
    destruct (bool_decide_reflect (k' = k)) as [->|Hk]; simpl; [|reflexivity].
    destruct Hbad as [Hbad | ->]; [congruence | reflexivity].
Qed.

(** X5: [change_pin], [reset_pin], [power_on], [power_off], [led_on] and
    [led_off] return only what their exchange decoded, and only when it is
    a confirmation of their own class whose [was_successful] is true; a
    confirmation of another class, or one reporting failure, makes each
    raise its own message. *)
Theorem confirmation_operations_check_success (new_pin : string) (s : SEM6000) :
  confirms (change_pin new_pin) (ChangePinCommand (pin s) new_pin)
    K_ChangePinNotification "Change PIN failed" s /\
  confirms reset_pin ResetPinCommand K_ResetPinNotification "Reset PIN failed" s /\
  confirms power_on (PowerSwitchCommand true)
    K_PowerSwitchNotification "Power on failed" s /\
  confirms power_off (PowerSwitchCommand false)
    K_PowerSwitchNotification "Power off failed" s /\
  confirms led_on (LEDSwitchCommand true)
    K_LEDSwitchNotification "LED on failed" s /\
  confirms led_off (LEDSwitchCommand false)
    K_LEDSwitchNotification "LED off failed" s.
Proof.
  refine (conj _ (conj _ (conj _ (conj _ (conj _ _)))));
    apply confirmation_operation_confirms;
    apply confirmation_operation_eq.
Qed.

(** X6: [request_timer_status] and [request_settings] hand back the decoded
    notification unchanged when it is of their snapshot class, and raise
    their own message for any other class; no success flag is looked at. *)
Theorem snapshot_operations_check_class_only (s s1 : SEM6000)
    (notification : Notification) :
  (exchange RequestTimerStatusCommand s = (Ok notification, s1) ->
   request_timer_status s =
   (if bool_decide (cls notification = K_RequestedTimerStatusNotification)
    then Ok notification
    else Raise (Exception "Request timer status failed"), s1)) /\
  (exchange RequestSettingsCommand s = (Ok notification, s1) ->
   request_settings s =
   (if bool_decide (cls notification = K_RequestedSettingsNotification)
    then Ok notification
    else Raise (Exception "Request settings failed"), s1)).
Proof.
  split; intros Hex.
  - unfold request_timer_status. cbv zeta.
    rewrite variant_operation_eq, Hex. reflexivity.
  - unfold request_settings. cbv zeta.
    rewrite variant_operation_eq, Hex. reflexivity.
Qed.

(** X7: once the first page reports four or more schedulers,
    [request_scheduler] returns nothing, whatever the link delivers next:
    it performs the exchange for page 1 and raises there or right after. *)
Theorem request_scheduler_four_or_more_never_returns (s s1 : SEM6000)
    (count : Z) (entries : list SchedulerEntry) :
  exchange (RequestSchedulerCommand 0) s
    = (Ok (SchedulerRequestedNotification count entries), s1) ->
  4 <= count ->
  exists e r s2,
    request_scheduler s = (Raise e, s2) /\
    exchange (RequestSchedulerCommand 1) s1 = (r, s2).
Proof.
  intros H0 Hcount. rewrite request_scheduler_eq, H0.
  change (isinstance (SchedulerRequestedNotification count entries)
            K_SchedulerRequestedNotification) with true. cbv iota.
  rewrite (proj1 (SchedulerRequestedNotification_attrs count entries)).
  unfold floordiv4.
  rewrite seqZ_cons by (apply Z.div_str_pos; lia).
  rewrite request_further_pages_cons.
  destruct (exchange (RequestSchedulerCommand 1) s1) as [[f|e] s2]; [|eauto].
  destruct (isinstance f K_SchedulerRequestedNotification); [|eauto].
  rewrite (proj2 (proj2 (SchedulerRequestedNotification_attrs count entries))).
  eauto.
Qed.

(** X8: a first page of any other class makes [request_scheduler] raise
    "Request scheduler 1st page failed" after that one exchange; with four
    or more schedulers reported, a second page of any other class makes it
    raise "Request scheduler 2nd page failed". *)
Theorem request_scheduler_wrong_page_class (s s1 : SEM6000)
    (notification : Notification) :
  exchange (RequestSchedulerCommand 0) s = (Ok notification, s1) ->
  (cls notification <> K_SchedulerRequestedNotification ->
   request_scheduler s =
   (Raise (Exception "Request scheduler 1st page failed"), s1)) /\
  (forall count entries further_notification s2,
      notification = SchedulerRequestedNotification count entries ->
      4 <= count ->
      exchange (RequestSchedulerCommand 1) s1 = (Ok further_notification, s2) ->
      cls further_notification <> K_SchedulerRequestedNotification ->
      request_scheduler s =
      (Raise (Exception "Request scheduler 2nd page failed"), s2)).
Proof.
  intros H0. split.
  - intros Hc. rewrite request_scheduler_eq, H0. unfold isinstance.
    now rewrite bool_decide_eq_false_2.
  - intros count entries f s2 -> Hcount H1 Hc.
    rewrite request_scheduler_eq, H0.
    change (isinstance (SchedulerRequestedNotification count entries)
              K_SchedulerRequestedNotification) with true. cbv iota.
    rewrite (proj1 (SchedulerRequestedNotification_attrs count entries)).
    unfold floordiv4.
    rewrite seqZ_cons by (apply Z.div_str_pos; lia).
    rewrite request_further_pages_cons, H1. unfold isinstance.
    now rewrite bool_decide_eq_false_2.
Qed.

End OperationChecks.

Section ArgumentErrors.
Context {codec : Codec} {pylib : PyLib}.

(** X9: when an argument of [set_power_limit], [set_prices],
    [set_reduced_period] or [set_timer] does not convert, the operation
    raises the conversion's exception before anything is sent: the session
    is untouched.  Arguments convert left to right, and [set_timer] also
    fails this way when the target date cannot be built. *)
Theorem argument_errors_leave_session (s : SEM6000) (e : exn) :
  (forall power_limit_in_watt,
      py_int power_limit_in_watt = Raise e ->
      set_power_limit power_limit_in_watt s = (Raise e, s)) /\
  (forall normal_price_in_cent reduced_price_in_cent,
      py_int normal_price_in_cent = Raise e \/
      ((exists normal, py_int normal_price_in_cent = Ok normal) /\
       py_int reduced_price_in_cent = Raise e) ->
      set_prices normal_price_in_cent reduced_price_in_cent s = (Raise e, s)) /\
  (forall is_active start_isotime end_isotime,
      time_fromisoformat start_isotime = Raise e \/
      ((exists start_time, time_fromisoformat start_isotime = Ok start_time) /\
       time_fromisoformat end_isotime = Raise e) ->
      set_reduced_period is_active start_isotime end_isotime s = (Raise e, s)) /\
  (forall is_reset_timer is_action_turn_on delay_isotime,
      time_fromisoformat delay_isotime = Raise e \/
      (exists time,
          time_fromisoformat delay_isotime = Ok time /\
          (datetime_add datetime_now (t_hour time) (t_minute time) (t_second time)
             = Raise e \/
           exists sum,
             datetime_add datetime_now (t_hour time) (t_minute time) (t_second time)
               = Ok sum /\
             datetime_new (dt_year sum mod 100) (dt_month sum) (dt_day sum)
               (dt_hour sum) (dt_minute sum) (dt_second sum) = Raise e)) ->
      set_timer is_reset_timer is_action_turn_on delay_isotime s = (Raise e, s)).
Proof.
  refine (conj _ (conj _ (conj _ _))).
  - intros arg H. unfold set_power_limit, bind, lift. now rewrite H.
  - intros a1 a2 [H | [[normal H1] H2]]; unfold set_prices, bind, lift.
    + now rewrite H.
    + now rewrite H1, H2.
  - intros a st en [H | [[t1 H1] H2]]; unfold set_reduced_period, bind, lift.
    + now rewrite H.
    + now rewrite H1, H2.
  - intros r a d [H | (time & H1 & [H2 | (sum & H2 & H3)])];
      unfold set_timer, bind, lift.
    + now rewrite H.
    + now rewrite H1, H2.
    + now rewrite H1, H2, H3.
Qed.

End ArgumentErrors.

(** ** Weekdays and scheduler construction, continued *)

Lemma SchedulerWeekday_of_value_value (w : SchedulerWeekday) :
  SchedulerWeekday_of_value (weekday_value w) = Ok w.
Proof. destruct w; reflexivity. Qed.

Lemma SchedulerWeekday_of_value_ok (v : Z) (w : SchedulerWeekday) :
  SchedulerWeekday_of_value v = Ok w -> weekday_value w = v.
Proof.
  unfold SchedulerWeekday_of_value.
  destruct (List.find _ weekday_members) as [w'|] eqn:Hfind; [|discriminate].
  intros H. inversion H; subst w'.
  apply find_some in Hfind as [_ Heq]. now apply Z.eqb_eq.
Qed.

Lemma SchedulerWeekday_of_value_out_of_range (v : Z) :
  v < 0 \/ 6 < v ->
  SchedulerWeekday_of_value v =
  Raise (ValueError (pretty v +:+ " is not a valid SchedulerWeekday")).
Proof.
  intros Hv. unfold SchedulerWeekday_of_value.
  destruct (List.find _ weekday_members) as [w|] eqn:Hfind; [|reflexivity].
  apply find_some in Hfind as [_ Heq]. apply Z.eqb_eq in Heq.
  destruct w; simpl in Heq; lia.
Qed.

(** X10: the enum lookup and [value] are inverse to each other: every
    member is found again by its value, a successful lookup returns the
    member with exactly that value, and a value below 0 or above 6 raises
    [ValueError] naming the value. *)
Theorem SchedulerWeekday_value_round_trip :
  (forall w, SchedulerWeekday_of_value (weekday_value w) = Ok w) /\
  (forall v w, SchedulerWeekday_of_value v = Ok w -> weekday_value w = v) /\
  (forall v, v < 0 \/ 6 < v ->
     SchedulerWeekday_of_value v =
     Raise (ValueError (pretty v +:+ " is not a valid SchedulerWeekday"))).
Proof.
  split; [|split].
  - exact SchedulerWeekday_of_value_value.
  - exact SchedulerWeekday_of_value_ok.
  - exact SchedulerWeekday_of_value_out_of_range.
Qed.

Lemma SchedulerWeekday_value_round_trip_witness :
  SchedulerWeekday_of_value 7 = Raise (ValueError "7 is not a valid SchedulerWeekday") /\
  weekday_value THURSDAY = 4.
Proof.
  split.
  - apply (proj2 (proj2 SchedulerWeekday_value_round_trip) 7). lia.
  - apply (proj1 (proj2 SchedulerWeekday_value_round_trip) 4 THURSDAY). reflexivity.
Defined.

(** An element the constructor accepts, with the weekday it ends up as. *)
Local Abbreviation accepted x w := (x = WDay w \/ x = WInt (weekday_value w)).

Lemma convert_weekdays_accepted (l : list weekday_arg) (days : list SchedulerWeekday) :
  Forall2 (fun x w => accepted x w) l days ->
  convert_weekdays l = Ok (map WDay days).
Proof.
  induction 1 as [|x w l days Hx _ IH]; [reflexivity|].
  destruct Hx as [-> | ->]; simpl.
  - now rewrite IH.
  - rewrite SchedulerWeekday_of_value_value. simpl. now rewrite IH.
Qed.

Lemma convert_then_assert (l l' : list weekday_arg) (days : list SchedulerWeekday) :
  convert_weekdays l = Ok l' ->
  assert_weekdays l' = Ok days ->
  Forall2 (fun x w => accepted x w) l days.
Proof.
  revert l' days. induction l as [|x l IH]; intros l' days Hc Ha.
  - inversion Hc; subst. inversion Ha. constructor.
  - simpl in Hc.
    assert (exists w rest' days',
               l' = WDay w :: rest' /\ days = w :: days' /\ accepted x w /\
               convert_weekdays l = Ok rest' /\ assert_weekdays rest' = Ok days')
      as (w & rest' & days' & -> & -> & Hx & Hc' & Ha').
    { destruct x as [v | w | str0]; simpl in Hc.
      - destruct (SchedulerWeekday_of_value v) as [w|] eqn:Hv; [|discriminate].
        simpl in Hc.
        destruct (convert_weekdays l) as [rest'|] eqn:Hrest; [|discriminate].
        inversion Hc; subst. simpl in Ha.
        destruct (assert_weekdays rest') as [days'|] eqn:Hdays; [|discriminate].
        inversion Ha; subst. exists w, rest', days'.
        apply SchedulerWeekday_of_value_ok in Hv. subst v. auto 10.
      - destruct (convert_weekdays l) as [rest'|] eqn:Hrest; [|discriminate].
        inversion Hc; subst. simpl in Ha.
        destruct (assert_weekdays rest') as [days'|] eqn:Hdays; [|discriminate].
        inversion Ha; subst. exists w, rest', days'. auto 10.
      - destruct (convert_weekdays l) as [rest'|] eqn:Hrest; [|discriminate].
        inversion Hc; subst. discriminate Ha. }
    constructor; [exact Hx | eapply IH; eassumption].
Qed.

(** X11: [Scheduler.__init__] succeeds exactly when every element of
    [repeat_on_weekdays] is a weekday or an integer that is a weekday's
    value; the scheduler then holds, position by position, the weekday
    given or the weekday with the given value (order and repetitions are
    kept) and the other arguments as passed. *)
Theorem Scheduler_init_ok_iff (is_active is_action_turn_on : bool)
    (l : list weekday_arg) (year month day hour minute : Z) (sch : Scheduler) :
  Scheduler_init is_active is_action_turn_on l year month day hour minute = Ok sch <->
  exists days,
    Forall2 (fun x w => accepted x w) l days /\
    sch = mkScheduler is_active is_action_turn_on days year month day hour minute.
Proof.
  unfold Scheduler_init. split.
  - destruct (convert_weekdays l) as [l'|] eqn:Hc; [|discriminate]. simpl.
    destruct (assert_weekdays l') as [days|] eqn:Ha; [|discriminate]. simpl.
    intros H. inversion H. exists days. split; [|reflexivity].
    eapply convert_then_assert; eassumption.
  - intros (days & Hacc & ->).
    rewrite (convert_weekdays_accepted _ _ Hacc). simpl.
    now rewrite assert_weekdays_days.
Qed.

Lemma Scheduler_init_ok_iff_witness :
  Scheduler_init true false [WInt 6; WDay MONDAY; WInt 6] 2024 3 15 6 30 =
  Ok (mkScheduler true false [SATURDAY; MONDAY; SATURDAY] 2024 3 15 6 30).
Proof.
  apply (proj2 (Scheduler_init_ok_iff true false [WInt 6; WDay MONDAY; WInt 6]
                  2024 3 15 6 30 _)).
  exists [SATURDAY; MONDAY; SATURDAY]. split; [|reflexivity].
  constructor; [right; reflexivity|].
  constructor; [left; reflexivity|].
  constructor; [right; reflexivity|]. constructor.
Defined.

Lemma convert_weekdays_out_of_range (l : list weekday_arg) (v : Z) :
  In (WInt v) l -> v < 0 \/ 6 < v ->
  exists msg, convert_weekdays l = Raise (ValueError msg).
Proof.
  intros Hin Hv. induction l as [|x rest IH]; [destruct Hin|].
  destruct Hin as [-> | Hin].
  - simpl. rewrite (SchedulerWeekday_of_value_out_of_range v Hv). simpl. eauto.
  - destruct (IH Hin) as [msg Hrest]. destruct x as [v' | w | str0]; simpl.
    + destruct (SchedulerWeekday_of_value v') as [w|e] eqn:Hv'; simpl.
      * rewrite Hrest. simpl. eauto.
      * destruct (SchedulerWeekday_of_value_error _ _ Hv') as [msg' ->]. eauto.
    + rewrite Hrest. simpl. eauto.
    + rewrite Hrest. simpl. eauto.
Qed.

Lemma convert_weekdays_in_range (l : list weekday_arg) :
  Forall (fun x => forall v, x = WInt v -> 0 <= v <= 6) l ->
  exists l', convert_weekdays l = Ok l' /\
             (forall str0, In (WStr str0) l -> In (WStr str0) l').
Proof.
  induction 1 as [|x l Hx _ IH]; [exists []; split; [reflexivity | auto]|].
  destruct IH as (l' & Hl' & Hstr). destruct x as [v | w | str0]; simpl.
  - destruct (SchedulerWeekday_of_value_range v (Hx v eq_refl)) as (w & Hw & _).
    rewrite Hw. simpl. rewrite Hl'. simpl. eexists. split; [reflexivity|].
    intros str0 [Heq | Hin]; [discriminate Heq | right; auto].
  - rewrite Hl'. simpl. eexists. split; [reflexivity|].
    intros str0 [Heq | Hin]; [discriminate Heq | right; auto].
  - rewrite Hl'. simpl. eexists. split; [reflexivity|].
    intros str1 [Heq | Hin]; [left; exact Heq | right; auto].
Qed.

Lemma assert_weekdays_str (l : list weekday_arg) (str0 : string) :
  In (WStr str0) l -> (forall v, ~ In (WInt v) l) ->
  assert_weekdays l = Raise AssertionError.
Proof.
  induction l as [|x l IH]; intros Hin Hint; [destruct Hin|].
  destruct x as [v | w | str1]; simpl.
  - exfalso. apply (Hint v). left. reflexivity.
  - destruct Hin as [Heq | Hin]; [discriminate Heq|].
    rewrite IH; [reflexivity | exact Hin |].
    intros v Hv. apply (Hint v). right. exact Hv.
  - reflexivity.
Qed.

Lemma convert_weekdays_no_int (l l' : list weekday_arg) :
  convert_weekdays l = Ok l' -> forall v, ~ In (WInt v) l'.
Proof.
  revert l'. induction l as [|x l IH]; intros l' Hc v Hin.
  - inversion Hc; subst. destruct Hin.
  - destruct x as [v' | w | str0]; simpl in Hc.
    + destruct (SchedulerWeekday_of_value v'); [|discriminate]. simpl in Hc.
      destruct (convert_weekdays l) as [rest'|]; [|discriminate].
      inversion Hc; subst. destruct Hin as [Heq | Hin]; [discriminate Heq|].
      eapply IH; eauto.
    + destruct (convert_weekdays l) as [rest'|]; [|discriminate].
      inversion Hc; subst. destruct Hin as [Heq | Hin]; [discriminate Heq|].
      eapply IH; eauto.
    + destruct (convert_weekdays l) as [rest'|]; [|discriminate].
      inversion Hc; subst. destruct Hin as [Heq | Hin]; [discriminate Heq|].
      eapply IH; eauto.
Qed.

(** X12: how [Scheduler.__init__] fails.  An integer below 0 or above 6
    anywhere in the list raises [ValueError], also when an element that is
    neither an integer nor a weekday stands before it; when all integers
    are weekday values, such an element raises [AssertionError]. *)
Theorem Scheduler_init_failures (is_active is_action_turn_on : bool)
    (l : list weekday_arg) (year month day hour minute : Z) :
  (forall v, In (WInt v) l -> v < 0 \/ 6 < v ->
     exists msg,
       Scheduler_init is_active is_action_turn_on l year month day hour minute
       = Raise (ValueError msg)) /\
  (forall str0,
     In (WStr str0) l ->
     Forall (fun x => forall v, x = WInt v -> 0 <= v <= 6) l ->
     Scheduler_init is_active is_action_turn_on l year month day hour minute
     = Raise AssertionError).
Proof.
  unfold Scheduler_init. split.
  - intros v Hin Hv.
    destruct (convert_weekdays_out_of_range l v Hin Hv) as [msg ->]. eauto.
  - intros str0 Hin Hrange.
    destruct (convert_weekdays_in_range l Hrange) as (l' & Hl' & Hstr).
    rewrite Hl'. simpl.
    rewrite (assert_weekdays_str l' str0 (Hstr _ Hin) (convert_weekdays_no_int _ _ Hl')).
    reflexivity.
Qed.

Lemma Scheduler_init_failures_witness :
  (exists msg, Scheduler_init true true [WStr "MONDAY"; WInt (-1)] 2024 3 15 6 30
               = Raise (ValueError msg)) /\
  Scheduler_init true true [WInt 1; WStr "MONDAY"] 2024 3 15 6 30
  = Raise AssertionError.
Proof.
  split.
  - apply (proj1 (Scheduler_init_failures true true [WStr "MONDAY"; WInt (-1)]
                    2024 3 15 6 30) (-1)).
    + simpl. auto.
    + lia.
  - apply (proj2 (Scheduler_init_failures true true [WInt 1; WStr "MONDAY"]
                    2024 3 15 6 30) "MONDAY").
    + simpl. auto.
    + constructor; [intros v Hv; inversion Hv; lia|].
      constructor; [intros v Hv; discriminate Hv|]. constructor.
Defined.

(** ** Device discovery *)

Lemma discover_loop_filter (scanner_results : list ScanEntry) (result : list Discovered) :
  discover_loop scanner_results result =
  result ++
  map (fun device => mkDiscovered (addr device) (getValueText device 9))
      (List.filter
         (fun device => bool_decide (getValueText device 2 = Some sem6000_service_uuid))
         scanner_results).
Proof.
  revert result. induction scanner_results as [|device rest IH]; intros result; simpl.
  - now rewrite app_nil_r.
  - destruct (bool_decide (getValueText device 2 = Some sem6000_service_uuid)); simpl.
    + rewrite IH. now rewrite <- app_assoc.
    + apply IH.
Qed.

(** X13: [discover] returns, in scan order, one entry for each scanned
    device whose service-class field is exactly the SEM6000 service UUID,
    carrying the device's address and its local name (or [None]); devices
    advertising anything else, or nothing, never appear. *)
Theorem discover_lists_sem6000_devices (scanner_results : list ScanEntry) :
  discover scanner_results =
    map (fun device => mkDiscovered (addr device) (getValueText device 9))
        (List.filter
           (fun device => bool_decide (getValueText device 2 = Some sem6000_service_uuid))
           scanner_results) /\
  (forall found,
      In found (discover scanner_results) <->
      exists device,
        In device scanner_results /\
        getValueText device 2 = Some sem6000_service_uuid /\
        found = mkDiscovered (addr device) (getValueText device 9)) /\
  (List.length (discover scanner_results) <= List.length scanner_results)%nat.
Proof.
  unfold discover. rewrite discover_loop_filter. simpl.
  split; [reflexivity|]. split.
  - intros found. rewrite in_map_iff. split.
    + intros (device & <- & Hin). apply filter_In in Hin as [Hin Huuid].
      apply bool_decide_eq_true_1 in Huuid. eauto.
    + intros (device & Hin & Huuid & ->). exists device. split; [reflexivity|].
      apply filter_In. split; [exact Hin|]. now apply bool_decide_eq_true_2.
  - rewrite length_map. apply filter_length_le.
Qed.

Lemma discover_lists_sem6000_devices_witness :
  In (mkDiscovered "AA:BB" (Some "SEM6000"))
     (discover
        [mkScanEntry "11:22" (fun _ => None);
         mkScanEntry "AA:BB"
           (fun field => if Z.eqb field 2 then Some sem6000_service_uuid
                         else if Z.eqb field 9 then Some "SEM6000" else None)]).
Proof.
  apply (proj1 (proj2 (discover_lists_sem6000_devices
           [mkScanEntry "11:22" (fun _ => None);
            mkScanEntry "AA:BB"
              (fun field => if Z.eqb field 2 then Some sem6000_service_uuid
                            else if Z.eqb field 9 then Some "SEM6000" else None)]))).
  eexists. split; [right; left; reflexivity|]. split; reflexivity.
Defined.

(** ** Time formatting *)

Lemma format_minutes_as_hour_and_minute (minutes : Z) :
  _format_minutes_as_time minutes =
  _format_hour_and_minute_as_time (minutes / 60) (minutes mod 60).
Proof.
  unfold _format_minutes_as_time, _format_hour_and_minute_as_time. cbv zeta.
  replace (minutes - minutes / 60 * 60) with (minutes mod 60); [reflexivity|].
  rewrite Z.mod_eq by lia. lia.
Qed.

Lemma format_minutes_checked :
  forallb
    (fun minutes =>
       match _format_minutes_as_time minutes with
       | String h1 (String h2 (String c (String m1 (String m2 EmptyString)))) =>
           bool_decide (c = ":"%char)
           && bool_decide (digits_value 0 (String h1 (String h2 "")) = Some (minutes / 60))
           && bool_decide (digits_value 0 (String m1 (String m2 "")) = Some (minutes mod 60))
       | _ => false
       end)
    (seqZ 0 1440) = true.
Proof. vm_compute. reflexivity. Qed.

(** X14: for a minute of the day (0 to 1439), [_format_minutes_as_time]
    gives five characters, two digits, a colon and two digits, and the
    digit pairs read as [minutes // 60] and [minutes % 60]; for every
    integer it agrees with [_format_hour_and_minute_as_time] on the
    quotient and remainder by 60. *)
Theorem format_minutes_as_time_clock (minutes : Z) :
  (0 <= minutes < 1440 ->
   exists h1 h2 m1 m2 : ascii,
     _format_minutes_as_time minutes =
       String h1 (String h2 (String ":" (String m1 (String m2 "")))) /\
     digits_value 0 (String h1 (String h2 "")) = Some (minutes / 60) /\
     digits_value 0 (String m1 (String m2 "")) = Some (minutes mod 60)) /\
  _format_minutes_as_time minutes =
  _format_hour_and_minute_as_time (minutes / 60) (minutes mod 60).
Proof.
  split; [|apply format_minutes_as_hour_and_minute].
  intros Hrange.
  pose proof format_minutes_checked as Hall.
  rewrite forallb_forall in Hall.
  specialize (Hall minutes).
  assert (In minutes (seqZ 0 1440)) as Hin.
  { apply list_elem_of_In, elem_of_seqZ. lia. }
  specialize (Hall Hin).
  destruct (_format_minutes_as_time minutes) as [|h1 [|h2 [|c [|m1 [|m2 [|]]]]]];
    try discriminate Hall.
  apply andb_true_iff in Hall as [Hall Hm].
  apply andb_true_iff in Hall as [Hc Hh].
  apply bool_decide_eq_true_1 in Hc, Hh, Hm. subst c.
  exists h1, h2, m1, m2. auto.
Qed.

Lemma format_minutes_as_time_clock_witness :
  exists h1 h2 m1 m2 : ascii,
    _format_minutes_as_time 1320 =
      String h1 (String h2 (String ":" (String m1 (String m2 "")))) /\
    digits_value 0 (String h1 (String h2 "")) = Some (1320 / 60) /\
    digits_value 0 (String m1 (String m2 "")) = Some (1320 mod 60).
Proof. apply (proj1 (format_minutes_as_time_clock 1320)). lia. Defined.

(** ** Boolean arguments given as Python values *)

(** Characters that lowercasing leaves alone and that begin neither "true"
    nor "on". *)
Local Abbreviation plain s :=
  (Forall (fun c => lower_ascii c = c /\ c <> "t"%char /\ c <> "o"%char)
          (list_ascii_of_string s)).

Lemma pretty_N_char_plain (d : N) :
  lower_ascii (pretty_N_char d) = pretty_N_char d /\
  pretty_N_char d <> "t"%char /\ pretty_N_char d <> "o"%char.
Proof.
  unfold pretty_N_char.
  repeat case_match; (split; [reflexivity | split; discriminate]).
Qed.

Lemma pretty_N_go_plain (x : N) (s : string) :
  plain s -> plain (pretty_N_go x s).
Proof.
  revert s. induction (N.lt_wf_0 x) as [x _ IH]; intros s Hs.
  destruct (decide (x = 0)%N) as [-> | Hx].
  - now rewrite pretty_N_go_0.
  - rewrite pretty_N_go_step by lia. apply IH.
    + apply N.div_lt; lia.
    + simpl. constructor; [apply pretty_N_char_plain | exact Hs].
Qed.

Lemma pretty_Z_plain (z : Z) : plain (pretty z).
Proof.
  assert (forall p : positive, plain (pretty p)) as Hpos.
  { intros p. unfold pretty, pretty_positive, pretty, pretty_N.
    destruct (decide (N.pos p = 0%N)); [discriminate|].
    apply pretty_N_go_plain. constructor. }
  destruct z as [|p|p]; unfold pretty, pretty_Z.
  - repeat constructor; discriminate.
  - apply Hpos.
  - simpl. constructor; [repeat split; discriminate | apply Hpos].
Qed.

Lemma lower_plain (s : string) : plain s -> lower s = s.
Proof.
  induction s as [|c s IH]; intros Hs; [reflexivity|].
  simpl in Hs. inversion Hs as [|? ? [Hc _] Hrest]; subst.
  simpl. now rewrite Hc, IH.
Qed.

(** X15: a Python [bool] argument is taken as it is, and an [int] argument
    is true exactly when it is 1 (so 0, 2 and -1 are false). *)
Theorem parse_boolean_of_bool_and_int :
  (forall b, _parse_boolean (PyBool b) = b) /\
  (forall z, _parse_boolean (PyInt z) = true <-> z = 1).
Proof.
  split; [intros []; reflexivity|].
  intros z. unfold _parse_boolean. cbn [str].
  rewrite (lower_plain _ (pretty_Z_plain z)).
  pose proof (pretty_Z_plain z) as Hplain.
  destruct (String.eqb_spec (pretty z) "1") as [H1 | H1].
  - split; [intros _ | reflexivity].
    apply (inj pretty). exact H1.
  - assert (z <> 1) as Hz by (intros ->; apply H1; reflexivity).
    destruct (String.eqb_spec (pretty z) "on") as [Hon | _].
    { rewrite Hon in Hplain. simpl in Hplain.
      inversion Hplain as [|? ? (_ & _ & Ho) _]. congruence. }
    destruct (String.eqb_spec (pretty z) "true") as [Ht | _].
    { rewrite Ht in Hplain. simpl in Hplain.
      inversion Hplain as [|? ? (_ & Ht' & _) _]. congruence. }
    split; [discriminate | intros ->; congruence].
Qed.

Lemma parse_boolean_of_bool_and_int_witness :
  _parse_boolean (PyInt 1) = true /\ _parse_boolean (PyBool false) = false.
Proof.
  split.
  - apply (proj2 parse_boolean_of_bool_and_int 1). reflexivity.
  - apply (proj1 parse_boolean_of_bool_and_int false).
Defined.

(** ** String forms *)

Lemma string_app_assoc (a b c : string) : (a +:+ b) +:+ c = a +:+ (b +:+ c).
Proof.
  induction a as [|x a IH]; [reflexivity|].
  change (String x ((a +:+ b) +:+ c) = String x (a +:+ (b +:+ c))).
  now rewrite IH.
Qed.

Lemma string_app_empty (a : string) : a +:+ "" = a.
Proof.
  induction a as [|x a IH]; [reflexivity|].
  change (String x (a +:+ "") = String x a). now rewrite IH.
Qed.

Lemma join_weekday_names_later (l : list SchedulerWeekday) (built : string) :
  l <> [] ->
  join_weekday_names l built false =
  built +:+ ", " +:+ String.concat ", " (map weekday_name l).
Proof.
  revert built. induction l as [|w rest IH]; intros built Hne; [congruence|].
  destruct rest as [|w' rest].
  - simpl. now rewrite string_app_assoc.
  - change (join_weekday_names (w :: w' :: rest) built false)
      with (join_weekday_names (w' :: rest) ((built +:+ ", ") +:+ weekday_name w) false).
    rewrite IH by discriminate.
    change (String.concat ", " (map weekday_name (w :: w' :: rest)))
      with (weekday_name w +:+ ", " +:+ String.concat ", " (map weekday_name (w' :: rest))).
    now rewrite !string_app_assoc.
Qed.

(** X16: the loop that renders [repeat_on_weekdays] appends the weekday
    names in list order, separated by ", ", with no separator before the
    first or after the last; [Scheduler.__str__] puts the result between
    brackets, so an empty list shows as "[]". *)
Theorem join_weekday_names_is_join (l : list SchedulerWeekday) (built : string) :
  join_weekday_names l built true =
    built +:+ String.concat ", " (map weekday_name l) /\
  (forall s, repeat_on_weekdays s = l ->
     exists before after,
       Scheduler_str s =
       before +:+ "repeat_on_weekdays=[" +:+
       String.concat ", " (map weekday_name l) +:+ "]" +:+ after).
Proof.
  assert (forall built', join_weekday_names l built' true =
            built' +:+ String.concat ", " (map weekday_name l)) as Hjoin.
  { intros built'. destruct l as [|w rest]; [simpl; now rewrite string_app_empty|].
    destruct rest as [|w' rest]; [reflexivity|].
    change (join_weekday_names (w :: w' :: rest) built' true)
      with (join_weekday_names (w' :: rest) (built' +:+ weekday_name w) false).
    rewrite join_weekday_names_later by discriminate.
    change (String.concat ", " (map weekday_name (w :: w' :: rest)))
      with (weekday_name w +:+ ", " +:+ String.concat ", " (map weekday_name (w' :: rest))).
    now rewrite !string_app_assoc. }
  split; [apply Hjoin|].
  intros s Hs. unfold Scheduler_str. cbv zeta. rewrite Hs, Hjoin.
  exists ("Scheduler(is_active=" +:+ str (PyBool (is_active s))
          +:+ ", is_action_turn_on=" +:+ str (PyBool (is_action_turn_on s)) +:+ ", ").
  exists (", year=" +:+ str (PyInt (year s)) +:+ ", month=" +:+ str (PyInt (month s))
          +:+ ", day=" +:+ str (PyInt (day s)) +:+ ", hour=" +:+ str (PyInt (hour s))
          +:+ ", minute=" +:+ str (PyInt (minute s)) +:+ ")").
  rewrite !string_app_assoc. reflexivity.
Qed.

Lemma join_weekday_names_is_join_witness :
  exists before after,
    Scheduler_str (mkScheduler true false [MONDAY; FRIDAY] 2024 3 15 6 30) =
    before +:+ "repeat_on_weekdays=[" +:+ "MONDAY, FRIDAY" +:+ "]" +:+ after.
Proof.
  apply (proj2 (join_weekday_names_is_join [MONDAY; FRIDAY] "")
           (mkScheduler true false [MONDAY; FRIDAY] 2024 3 15 6 30)).
  reflexivity.
Defined.

(** ** Scheduler pages, continued *)

Section MoreSchedulerPages.
Context {codec : Codec}.

(** X17: with fewer than four schedulers reported (also zero or a negative
    count), [request_scheduler] performs the one exchange for page 0 and
    returns the first page as decoded: count and entries unchanged, buffer
    empty. *)
Theorem request_scheduler_fewer_than_four (s s1 : SEM6000)
    (count : Z) (entries : list SchedulerEntry) :
  exchange (RequestSchedulerCommand 0) s
    = (Ok (SchedulerRequestedNotification count entries), s1) ->
  count < 4 ->
  request_scheduler s = (Ok (SchedulerRequestedNotification count entries), s1) /\
  raw_notifications s1 = [] /\
  (forall encoded, encode (RequestSchedulerCommand 0) = Ok encoded ->
                   written s1 = written s ++ [encoded]).
Proof.
  intros H Hcount. split; [now apply request_scheduler_single_page|].
  split.
  - destruct (exchange_frame_run _ _ _ _ H) as (_ & _ & _ & Hraw).
    eapply Hraw. reflexivity.
  - intros encoded Henc. eapply exchange_written; eassumption.
Qed.

End MoreSchedulerPages.

(** ** Concrete runs *)

Lemma timeout_raises_incomplete_witness :
  @authorize sample_codec
    (session [Some [Byte.x0f; Byte.x17; Byte.x00; Byte.xff]; Some [Byte.xff]; None;
              Some (frame 23 [0%N])]) =
  (Raise (Exception "Incomplete notification data"),
   mkSEM6000 "0000" [[Byte.x0f; Byte.x17; Byte.x00; Byte.xff]; [Byte.xff]]
     [Some (frame 23 [0%N])] [frame 23 []]).
Proof.
  refine (proj2 (@timeout_raises_incomplete sample_codec
                   (AuthorizeCommand "0000") (frame 23 [])
                   (session [Some [Byte.x0f; Byte.x17; Byte.x00; Byte.xff];
                             Some [Byte.xff]; None; Some (frame 23 [0%N])])
                   [[Byte.x0f; Byte.x17; Byte.x00; Byte.xff]; [Byte.xff]]
                   [None; Some (frame 23 [0%N])]
                   _ _ _ _ _)
                "" authorize (fun s => AuthorizeCommand (pin s)) _ _).
  - reflexivity.
  - constructor; [reflexivity | constructor; [reflexivity | constructor]].
  - reflexivity.
  - right. eexists. reflexivity.
  - left. discriminate.
  - left. reflexivity.
  - reflexivity.
Defined.

Lemma fragments_are_reassembled_witness :
  @exchange sample_codec (PowerSwitchCommand true)
    (mkSEM6000 "0000" [[Byte.x0f]]
       [Some [Byte.x03]; Some [Byte.x01]; Some [Byte.xff; Byte.xff];
        Some [Byte.x01]] []) =
  (Ok (PowerSwitchNotification false),
   mkSEM6000 "0000" [] [Some [Byte.x01]] [frame 3 [1%N]]).
Proof.
  refine (proj1 (@fragments_are_reassembled sample_codec
                   (PowerSwitchCommand true) (frame 3 [1%N])
                   (mkSEM6000 "0000" [[Byte.x0f]]
                      [Some [Byte.x03]; Some [Byte.x01];
                       Some [Byte.xff; Byte.xff]; Some [Byte.x01]] [])
                   [[Byte.x03]; [Byte.x01]] [Byte.xff; Byte.xff]
                   [Some [Byte.x01]] (PowerSwitchNotification false)
                   _ _ _ _ _)).
  - reflexivity.
  - constructor; [reflexivity | constructor; [reflexivity | constructor]].
  - reflexivity.
  - reflexivity.
  - vm_compute; reflexivity.
Defined.

Lemma operation_frame_witness :
  pin (mkSEM6000 "0000" [] [] [frame 24 []]) = "0000" /\
  @exchange strict_codec (ChangePinCommand "0000" "1234")
    (session [Some (frame 24 [0%N])]) =
  (Ok (ChangePinNotification true), mkSEM6000 "0000" [] [] [frame 24 []]).
Proof.
  assert (@change_pin strict_codec "1234" (session [Some (frame 24 [0%N])]) =
          (Ok (ChangePinNotification true), mkSEM6000 "0000" [] [] [frame 24 []]))
    as Hrun by (vm_compute; reflexivity).
  pose proof (@operation_frame strict_codec "1234" (change_pin "1234")
                (fun s => ChangePinCommand (pin s) "1234")
                (session [Some (frame 24 [0%N])])
                (mkSEM6000 "0000" [] [] [frame 24 []])
                (Ok (ChangePinNotification true))
                (or_intror (or_introl eq_refl)) Hrun) as (Hpin & _ & _ & Hok).
  split; [exact Hpin|].
  exact (proj1 (Hok _ eq_refl)).
Defined.

Lemma encode_error_leaves_session_witness :
  @authorize strict_codec (mkSEM6000 "12345" [[Byte.x0f]] [Some (frame 23 [0%N])] []) =
  (Raise (ValueError "pin must have four digits"),
   mkSEM6000 "12345" [[Byte.x0f]] [Some (frame 23 [0%N])] []).
Proof.
  apply (proj1 (@encode_error_leaves_session strict_codec
                  (mkSEM6000 "12345" [[Byte.x0f]] [Some (frame 23 [0%N])] [])
                  (ValueError "pin must have four digits"))
               "" authorize (fun s => AuthorizeCommand (pin s))).
  - left. reflexivity.
  - reflexivity.
Defined.

Lemma confirmation_operations_check_success_witness :
  @power_off sample_codec (session [Some (frame 3 [1%N])]) =
    (Raise (Exception "Power off failed"), mkSEM6000 "0000" [] [] [frame 3 [0%N]]) /\
  @led_on strict_codec (session [Some (frame 3 [0%N])]) =
    (Raise (Exception "LED on failed"), mkSEM6000 "0000" [] [] [frame 15 [1%N]]).
Proof.
  split.
  - apply (proj2 (proj1 (proj2 (proj2 (proj2
             (@confirmation_operations_check_success sample_codec ""
                (session [Some (frame 3 [1%N])]))))))
             K_PowerSwitchNotification false).
    + vm_compute; reflexivity.
    + right. reflexivity.
  - apply (proj2 (proj1 (proj2 (proj2 (proj2 (proj2
             (@confirmation_operations_check_success strict_codec ""
                (session [Some (frame 3 [0%N])])))))))
             K_PowerSwitchNotification true).
    + vm_compute; reflexivity.
    + left. discriminate.
Defined.

Lemma snapshot_operations_check_class_only_witness :
  @request_timer_status strict_codec
    (session [Some (frame 9 [1; 0; 30; 15; 10; 16; 3; 24]%N)]) =
  (Ok (RequestedTimerStatusNotification true false 30 15 10 16 3 24 0),
   mkSEM6000 "0000" [] [] [frame 9 []]).
Proof.
  apply (proj1 (@snapshot_operations_check_class_only strict_codec
                  (session [Some (frame 9 [1; 0; 30; 15; 10; 16; 3; 24]%N)])
                  (mkSEM6000 "0000" [] [] [frame 9 []])
                  (RequestedTimerStatusNotification true false 30 15 10 16 3 24 0))).
  vm_compute; reflexivity.
Defined.

Lemma request_scheduler_four_or_more_never_returns_witness :
  exists e r s2,
    @request_scheduler sample_codec
      (session [Some (page_frame 5 [1; 2; 3; 4]%N); None]) = (Raise e, s2) /\
    @exchange sample_codec (RequestSchedulerCommand 1)
      (mkSEM6000 "0000" [] [None] [frame 20 [0%N]]) = (r, s2).
Proof.
  apply (@request_scheduler_four_or_more_never_returns sample_codec
           (session [Some (page_frame 5 [1; 2; 3; 4]%N); None])
           (mkSEM6000 "0000" [] [None] [frame 20 [0%N]])
           5 (map (fun slot => mkSchedulerEntry slot sample_scheduler) [1; 2; 3; 4])).
  - vm_compute; reflexivity.
  - lia.
Defined.

Lemma request_scheduler_wrong_page_class_witness :
  @request_scheduler sample_codec (session [Some (frame 3 [0%N])]) =
  (Raise (Exception "Request scheduler 1st page failed"),
   mkSEM6000 "0000" [] [] [frame 20 [0%N]]).
Proof.
  refine (proj1 (@request_scheduler_wrong_page_class sample_codec
                   (session [Some (frame 3 [0%N])])
                   (mkSEM6000 "0000" [] [] [frame 20 [0%N]])
                   (PowerSwitchNotification true) _) _).
  - vm_compute; reflexivity.
  - simpl. discriminate.
Defined.

Lemma argument_errors_leave_session_witness :
  @set_timer sample_codec pylib_in_2100 (PyBool false) (PyStr "on") "00:30"
    (session [Some (frame 8 [0%N])]) =
  (Raise (ValueError "datetime field out of range"),
   session [Some (frame 8 [0%N])]).
Proof.
  apply (proj2 (proj2 (proj2
           (@argument_errors_leave_session sample_codec pylib_in_2100
              (session [Some (frame 8 [0%N])])
              (ValueError "datetime field out of range"))))).
  right. exists (mkTime 0 30 0). split; [reflexivity|].
  right. exists (mkDateTime 2100 1 1 0 30 0). split; reflexivity.
Defined.

Lemma request_scheduler_fewer_than_four_witness :
  @request_scheduler sample_codec (session [Some (page_frame 3 [1; 2; 3]%N)]) =
  (Ok (SchedulerRequestedNotification 3
         (map (fun slot => mkSchedulerEntry slot sample_scheduler) [1; 2; 3])),
   mkSEM6000 "0000" [] [] [frame 20 [0%N]]).
Proof.
  apply (proj1 (@request_scheduler_fewer_than_four sample_codec
                  (session [Some (page_frame 3 [1; 2; 3]%N)])
                  (mkSEM6000 "0000" [] [] [frame 20 [0%N]])
                  3 (map (fun slot => mkSchedulerEntry slot sample_scheduler) [1; 2; 3])
                  ltac:(vm_compute; reflexivity) ltac:(lia))).
Defined.

(** ** What the argument-converting operations send *)

Section CommandsSent.
Context {codec : Codec} {pylib : PyLib}.

Lemma variant_operation_written (k : klass) (message : string) (command : Command)
    (encoded : bytes) (s s1 : SEM6000) (r : result Notification) :
  encode command = Ok encoded ->
  (_send_command command ;;;
   let! notification := consume_notification in
   if negb (isinstance notification k) then raise (Exception message)
   else ret notification) s = (r, s1) ->
  written s1 = written s ++ [encoded].
Proof.
  intros Henc. rewrite variant_operation_eq.
  destruct (exchange command s) as [r0 s0] eqn:Hex.
  pose proof (exchange_written _ _ _ _ _ Henc Hex) as Hw.
  destruct r0 as [n|e]; intros H; inversion H; subst; exact Hw.
Qed.

(** X19: once their arguments convert, [set_power_limit], [set_prices] and
    [set_reduced_period] write exactly one command, whatever comes back:
    the limit or the prices as [int] gave them, and for the reduced period
    the flag as [_parse_boolean] reads it with both times as
    [hour*60 + minute], seconds dropped. *)
Theorem converted_arguments_are_sent (s s1 : SEM6000) (r : result Notification)
    (encoded : bytes) :
  (forall power_limit_in_watt watt,
      py_int power_limit_in_watt = Ok watt ->
      encode (SetPowerLimitCommand watt) = Ok encoded ->
      set_power_limit power_limit_in_watt s = (r, s1) ->
      written s1 = written s ++ [encoded]) /\
  (forall normal_price_in_cent reduced_price_in_cent normal reduced,
      py_int normal_price_in_cent = Ok normal ->
      py_int reduced_price_in_cent = Ok reduced ->
      encode (SetPricesCommand normal reduced) = Ok encoded ->
      set_prices normal_price_in_cent reduced_price_in_cent s = (r, s1) ->
      written s1 = written s ++ [encoded]) /\
  (forall is_active start_isotime end_isotime start_time end_time,
      time_fromisoformat start_isotime = Ok start_time ->
      time_fromisoformat end_isotime = Ok end_time ->
      encode (SetReducedPeriodCommand (_parse_boolean is_active)
                (t_hour start_time * 60 + t_minute start_time)
                (t_hour end_time * 60 + t_minute end_time)) = Ok encoded ->
      set_reduced_period is_active start_isotime end_isotime s = (r, s1) ->
      written s1 = written s ++ [encoded]).
Proof.
  refine (conj _ (conj _ _)).
  - intros arg watt Hint Henc. unfold set_power_limit.
    unfold bind at 1. unfold lift at 1. rewrite Hint. cbv beta iota zeta.
    now apply variant_operation_written.
  - intros a1 a2 normal reduced H1 H2 Henc. unfold set_prices.
    unfold bind at 1. unfold lift at 1. rewrite H1. cbv beta iota zeta.
    unfold bind at 1. unfold lift at 1. rewrite H2. cbv beta iota zeta.
    now apply variant_operation_written.
  - intros a st en t1 t2 H1 H2 Henc. unfold set_reduced_period.
    unfold bind at 1. unfold lift at 1. rewrite H1. cbv beta iota zeta.
    unfold bind at 1. unfold lift at 1. rewrite H2. cbv beta iota zeta.
    now apply variant_operation_written.
Qed.

End CommandsSent.

Lemma converted_arguments_are_sent_witness :
  written (mkSEM6000 "0000" [] [] [frame 18 [1; 1; 104; 5; 40]%N]) =
  [] ++ [frame 18 [1; 1; 104; 5; 40]%N].
Proof.
  refine (proj2 (proj2 (@converted_arguments_are_sent sample_codec sample_pylib
            (session [Some (frame 18 [0%N])])
            (mkSEM6000 "0000" [] [] [frame 18 [1; 1; 104; 5; 40]%N])
            (Ok (ReducedPeriodSetNotification true))
            (frame 18 [1; 1; 104; 5; 40]%N)))
          (PyStr "On") "06:00:59" "22:00" (mkTime 6 0 59) (mkTime 22 0 0) _ _ _ _);
    vm_compute; reflexivity.
Defined.
